(** * Optical-fibre loss simulation: a shallow embedding of the Python scripts

    The scripts compute with IEEE binary64 numbers.  The embedding reads every
    arithmetic operation over the real numbers ([R]): rounding and infinities
    are outside the model, and a real 0 stands for +0.0.  What binary64 does
    differently in kind is modelled where the code meets it: the
    OverflowError of Python's [**], the sign bit NumPy tests on the scale of
    a normal draw, the infinite loss of a NumPy division by a zero radius.
    Statements are made for inputs in ranges where the intermediate results
    stay finite, and as orderings that rounding cannot break.  Where a
    statement is about one concrete evaluation, module [F64] repeats the
    arithmetic with Rocq's primitive binary64 floats, so that the exact
    machine result can be computed.

    Python exceptions are an error type, the process-global NumPy generator
    is an explicit state threaded through every call that draws from it, and
    the Tk entry fields are the values (or parse failures) the callbacks read
    from them.  Plotting calls have no effect on the data and are left out. *)

From Stdlib Require Import Reals Lra Lia List ZArith String Bool Floats.
From Stdlib Require Import Sorting.Sorted Sorting.Permutation Psatz.
Import ListNotations.

Set Warnings "-inexact-float".

Local Open Scope R_scope.

(** ** The Python / NumPy runtime the scripts rely on *)

Module Py.

Inductive exn : Type :=
| ZeroDivisionError
| ValueError
| TypeError
| IndexError
| KeyError
| OverflowError.

Inductive result (A : Type) : Type :=
| Ok (a : A)
| Raise (e : exn).
Arguments Ok {A} a.
Arguments Raise {A} e.

(** Python's float [x / y]: raises on a zero divisor. *)
Definition div (x y : R) : result R :=
  if Req_dec_T y 0 then Raise ZeroDivisionError else Ok (x / y).

(** A NumPy float64 scalar: a finite value, or one of inf and nan (what a
    division by zero gives on NumPy scalars, which never raise). *)
Inductive np_float : Type :=
| Fin (x : R)
| NotFin.

(** Sequencing of results. *)
Definition and_then {A B} (r : result A) (k : A -> result B) : result B :=
  match r with
  | Ok a => k a
  | Raise e => Raise e
  end.

(** [10 ** x] on floats. *)
Definition pow10 (x : R) : R := Rpower 10 x.

(** The magnitude from which a binary64 result is infinite (the midpoint
    between the largest float and 2^1024, about 1.7977e308). *)
Definition overflow_bound : R := 1.7976931348623158e308.

(** The result [r] of Python's [**] on floats: a result too large for a
    float is an OverflowError. *)
Definition checked (r : R) : result R :=
  if Rle_dec overflow_bound (Rabs r) then Raise OverflowError else Ok r.

(** [10 ** x] on Python floats. *)
Definition float_pow10 (x : R) : result R := checked (pow10 x).

(** The global generator [np.random]: [gauss k] is the k-th standard normal
    deviate it will hand out, [perms k] the permutation it produces when
    asked to shuffle at position k, [pos] the number of requests served. *)
Record rng : Type := mkRng {
  gauss : nat -> R;
  perms : nat -> list Z;
  pos : nat
}.

Definition advance (g : rng) : rng :=
  mkRng (gauss g) (perms g) (S (pos g)).

(** Computations over a state [S] that may raise: the state reached when
    the exception is raised is kept. *)
Definition M (S A : Type) : Type := S -> result A * S.

Definition ret {S A} (a : A) : M S A := fun g => (Ok a, g).
Definition raise {S A} (e : exn) : M S A := fun g => (Raise e, g).
Definition bind {S A B} (c : M S A) (k : A -> M S B) : M S B :=
  fun g => match c g with
           | (Ok a, g') => k a g'
           | (Raise e, g') => (Raise e, g')
           end.
Definition lift {S A} (r : result A) : M S A := fun g => (r, g).
Definition modify {S} (f : S -> S) : M S unit := fun g => (Ok tt, f g).

(** A computation on the second component of a pair of states. *)
Definition on_snd {S T A} (c : M T A) : M (S * T) A :=
  fun w => let '(r, t) := c (snd w) in (r, (fst w, t)).

(** [np.random.normal(loc, scale)]: [loc + scale * z] for the next standard
    deviate z; a negative scale is refused.  This is the draw for a scale
    that is not a negative zero; the draws whose scale can be one are
    [normal_signed] and [normal_product]. *)
Definition normal (loc scale : R) : M rng R :=
  fun g => if Rlt_dec scale 0 then (Raise ValueError, g)
           else (Ok (loc + scale * gauss g (pos g)), advance g).

(** The sign bit of a float read as a real (a real 0 is +0.0). *)
Definition negative (x : R) : bool := if Rlt_dec x 0 then true else false.

(** [np.random.normal(loc, scale)] for a scale given with its sign bit:
    NumPy refuses every scale whose sign bit is set, -0.0 included. *)
Definition normal_signed (loc scale : R) (sign_bit : bool) : M rng R :=
  fun g => if sign_bit then (Raise ValueError, g)
           else (Ok (loc + scale * gauss g (pos g)), advance g).

(** [np.random.normal(loc, s * x)]: the product of two floats has its sign
    bit set exactly when one of the factors has, also when the product is a
    zero (0.0 * -3.5 is -0.0). *)
Definition normal_product (loc s x : R) : M rng R :=
  normal_signed loc (s * x) (xorb (negative s) (negative x)).

(** [np.random.permutation(n)]. *)
Definition permutation (n : Z) : M rng (list Z) :=
  fun g => (Ok (perms g (pos g)), advance g).

(** [np.arange(a, b)] on integers (within the range of int64, where NumPy
    keeps them integers). *)
Definition arange (a b : Z) : list Z :=
  map (fun i => (a + Z.of_nat i)%Z) (seq 0 (Z.to_nat (b - a))).

(** [np.random.choice(np.arange(n), size, replace=False)]: the first [size]
    entries of a permutation of the population. *)
Definition choice (n size : Z) : M rng (list Z) :=
  if (Z.of_nat (List.length (arange 0 n)) <? size)%Z then raise ValueError
  else if (size <? 0)%Z then raise ValueError
  else bind (permutation (Z.of_nat (List.length (arange 0 n))))
            (fun p => ret (firstn (Z.to_nat size) p)).

(** [np.linspace(start, stop, num)]: [num] evenly spaced points, the last
    one set to [stop] itself.  In binary64 neighbouring points can round to
    the same float; their order is kept. *)
Definition linspace (start stop : R) (num : nat) : list R :=
  match num with
  | O => []
  | S O => [start]
  | S m => map (fun i => INR i * ((stop - start) / INR m) + start) (seq 0 m)
           ++ [stop]
  end.

(** [np.sort] on an integer array. *)
Fixpoint insert (x : Z) (l : list Z) : list Z :=
  match l with
  | [] => [x]
  | y :: t => if (x <=? y)%Z then x :: l else y :: insert x t
  end.

Definition sort (l : list Z) : list Z := fold_right insert [] l.

(** [x in a] for an integer array. *)
Definition contains (x : Z) (a : list Z) : bool := existsb (Z.eqb x) a.

(** Run [f] on each element in order, collecting the results (a [for] loop
    that appends to a list). *)
Fixpoint for_each {S A B} (f : A -> M S B) (l : list A) : M S (list B) :=
  match l with
  | [] => ret []
  | x :: t => bind (f x) (fun y => bind (for_each f t) (fun ys => ret (y :: ys)))
  end.

(** The second component of a returned pair, when there is one. *)
Definition returned_snd {A B} (r : result (A * B)) : result B :=
  match r with
  | Ok (_, b) => Ok b
  | Raise e => Raise e
  end.

(** The last element [a[-1]]. *)
Definition last_elem {A} (l : list A) : result A :=
  match rev l with
  | [] => Raise IndexError
  | x :: _ => Ok x
  end.

End Py.

Import Py.

Declare Scope py_scope.
Notation "x <- c ;; k" := (bind c (fun x => k))
  (at level 61, c at next level, right associativity) : py_scope.
Notation "' ( x , y ) <- c ;; k" := (bind c (fun p => let '(x, y) := p in k))
  (at level 61, x name, y name, c at next level, right associativity) : py_scope.
Local Open Scope py_scope.

(** ** sim8.py: catalogue, loss law and the sweeps of the GUI *)

Module Sim8.

Record fiber_params : Type := mkParams {
  attenuation_coeff : R;
  base_bending_loss : R;
  ideal_bend_radius : R
}.

Definition fiber_types : list (string * fiber_params) :=
  [ ("G.652D"%string, mkParams 0.20 0.10 5.0);
    ("G.657A"%string, mkParams 0.18 0.05 3.0);
    ("G.655"%string,  mkParams 0.22 0.15 5.0);
    ("G.652C"%string, mkParams 0.22 0.12 5.0);
    ("G.657B"%string, mkParams 0.18 0.03 2.5) ].

(** [fiber_types[name]]. *)
Fixpoint lookup (name : string) (d : list (string * fiber_params))
  : result fiber_params :=
  match d with
  | [] => Raise KeyError
  | (k, v) :: t => if String.eqb name k then Ok v else lookup name t
  end.

Definition I_in : R := 1000.0.
Definition default_turns : Z := 5.
Definition bend_angle : R := 90.0.
Definition room_temperature : R := 25.0.
Definition temp_coefficient : R := 0.0002.
Definition noise_std : R := 0.02.

Definition bending_loss (baseline ideal bend_radius bend_angle_deg : R)
  : result R :=
  match div ideal bend_radius with
  | Ok q => Ok (baseline * q * (bend_angle_deg / 90.0))
  | Raise e => Raise e
  end.

Definition simulate_output_current
    (fiber_length bend_radius ambient_temp attenuation_coeff
     base_bending_loss ideal_bend_radius : R) (n_turns : Z) : M rng (R * R) :=
  let loss_attenuation := attenuation_coeff * fiber_length in
  let loss_temp :=
    temp_coefficient * Rabs (ambient_temp - room_temperature) * fiber_length in
  loss_per_bend <-
    lift (bending_loss base_bending_loss ideal_bend_radius bend_radius bend_angle) ;;
  let total_bending_loss := IZR n_turns * loss_per_bend in
  let total_loss := loss_attenuation + total_bending_loss + loss_temp in
  let I_out := I_in * pow10 (- total_loss / 10) in
  noise <- normal 0 (noise_std * I_out) ;;
  ret (I_out + noise, total_loss).

(** One sample of the bend-radius sweep.  The radius is a NumPy scalar
    there, so a zero radius does not raise: the loss per bend and with it
    the total loss are infinite, which [NonFinite] records. *)
Inductive sample : Type :=
| Sample (i_out total_loss : R)
| NonFinite.

(** What the callbacks write into [result_label]. *)
Inductive label : Type :=
| Initial
| Message (text : string)
| LengthSim (at_km i_out loss : R)
| TurnsSim (at_turns : Z) (i_out loss : R)
| BendingSim (at_cm : R) (last : sample).

(** The module-level variables the callbacks assign. *)
Record gui : Type := mkGui {
  length_sim_data : option (list R * list R * list R);
  turns_sim_data : option (list Z * list R * list R);
  result_label : label
}.

(** The state a callback runs in: the module variables and the generator. *)
Definition world : Type := (gui * rng)%type.

Definition set_label (l : label) : M world unit :=
  modify (fun w => (mkGui (length_sim_data (fst w)) (turns_sim_data (fst w)) l,
                    snd w)).

Definition set_length_sim_data (d : list R * list R * list R) : M world unit :=
  modify (fun w => (mkGui (Some d) (turns_sim_data (fst w)) (result_label (fst w)),
                    snd w)).

Definition set_turns_sim_data (d : list Z * list R * list R) : M world unit :=
  modify (fun w => (mkGui (length_sim_data (fst w)) (Some d) (result_label (fst w)),
                    snd w)).

(** An entry field as the callback sees it: [Some v] when [float(...)]
    (or [int(...)]) accepts its text, [None] when it raises ValueError. *)
Definition entry (A : Type) : Type := option A.

Definition run_length_simulation (fiber_type : string)
    (length_start_entry length_end_entry temp_entry bend_entry : entry R)
  : M world unit :=
  match length_start_entry, length_end_entry with
  | Some length_start, Some length_end =>
    match temp_entry with
    | Some ambient_temp =>
      match bend_entry with
      | Some bend_radius =>
        params <- lift (lookup fiber_type fiber_types) ;;
        let att_coeff := attenuation_coeff params in
        let base_bend_loss := base_bending_loss params in
        let ideal_bend_rad := ideal_bend_radius params in
        let fiber_lengths := linspace length_start length_end 100 in
        samples <- on_snd (for_each (fun L =>
            simulate_output_current L bend_radius ambient_temp att_coeff
              base_bend_loss ideal_bend_rad default_turns) fiber_lengths) ;;
        let output_currents := map fst samples in
        let total_losses := map snd samples in
        _ <- set_length_sim_data (fiber_lengths, output_currents, total_losses) ;;
        x <- lift (last_elem fiber_lengths) ;;
        i <- lift (last_elem output_currents) ;;
        l <- lift (last_elem total_losses) ;;
        set_label (LengthSim x i l)
      | None =>
        set_label (Message "Enter a valid bending radius (cm) for length simulation.")
      end
    | None => set_label (Message "Enter a valid ambient temperature (°C).")
    end
  | _, _ => set_label (Message "Enter valid fiber length values (km).")
  end.

Definition run_turns_simulation (fiber_type : string)
    (fixed_length_turns_entry : entry R) (turn_from_entry turn_to_entry : entry Z)
    (bend_turns_entry temp_entry : entry R) : M world unit :=
  match fixed_length_turns_entry with
  | Some fixed_length =>
    match turn_from_entry, turn_to_entry with
    | Some turn_from, Some turn_to =>
      match bend_turns_entry with
      | Some bend_radius =>
        match temp_entry with
        | Some ambient_temp =>
          params <- lift (lookup fiber_type fiber_types) ;;
          let att_coeff := attenuation_coeff params in
          let base_bend_loss := base_bending_loss params in
          let ideal_bend_rad := ideal_bend_radius params in
          let n_turns_array := arange turn_from (turn_to + 1) in
          samples <- on_snd (for_each (fun n =>
              simulate_output_current fixed_length bend_radius ambient_temp
                att_coeff base_bend_loss ideal_bend_rad n) n_turns_array) ;;
          let output_currents := map fst samples in
          let total_losses := map snd samples in
          _ <- set_turns_sim_data (n_turns_array, output_currents, total_losses) ;;
          n <- lift (last_elem n_turns_array) ;;
          i <- lift (last_elem output_currents) ;;
          l <- lift (last_elem total_losses) ;;
          set_label (TurnsSim n i l)
        | None => set_label (Message "Enter a valid ambient temperature (°C).")
        end
      | None =>
        set_label (Message "Enter a valid bending radius (cm) for turns simulation.")
      end
    | _, _ => set_label (Message "Enter valid turn range values (integer).")
    end
  | None =>
    set_label (Message "Enter a valid fixed fiber length (km) for turns simulation.")
  end.


(** What [savefig] writes: the file, the fibre named in the title and the
    two plotted series. *)
Record figure : Type := mkFigure {
  fig_path : string;
  fig_title_fiber : string;
  fig_x : list R;
  fig_y : list R
}.

(** [selected] is the value of [fiber_type_var] when the button is pressed,
    [file_path] the answer of the save dialog (empty when it is cancelled);
    the result is the figure written, if any. *)
Definition save_length_graph (selected file_path : string)
  : M world (option figure) :=
  fun w =>
    match length_sim_data (fst w) with
    | None =>
      (_ <- set_label (Message "Run Length Simulation first.") ;; ret None) w
    | Some (fiber_lengths, output_currents, _) =>
      if String.eqb file_path "" then ret None w
      else (_ <- set_label (Message ("Length graph saved as: " ++ file_path)) ;;
            ret (Some (mkFigure file_path selected fiber_lengths output_currents))) w
    end.


(** [simulate_output_current] as the bend-radius sweep calls it, with the
    radius a NumPy scalar: the division by a zero radius gives an infinite
    loss instead of raising, and the noise is still drawn. *)
Definition simulate_output_current_np
    (fiber_length bend_radius ambient_temp attenuation_coeff
     base_bending_loss ideal_bend_radius : R) (n_turns : Z) : M rng sample :=
  if Req_dec_T bend_radius 0
  then fun g => (Ok NonFinite, advance g)
  else
    '(i_out, total_loss) <-
      simulate_output_current fiber_length bend_radius ambient_temp
        attenuation_coeff base_bending_loss ideal_bend_radius n_turns ;;
    ret (Sample i_out total_loss).

(** The module variables together with [bending_sim_data], which holds the
    radii and, sample by sample, the output currents and total losses. *)
Record gui_b : Type := mkGuiB {
  panel : gui;
  bending_sim_data : option (list R * list sample)
}.

Definition world_b : Type := (gui_b * rng)%type.

Definition set_label_b (l : label) : M world_b unit :=
  modify (fun w =>
            (mkGuiB (mkGui (length_sim_data (panel (fst w)))
                           (turns_sim_data (panel (fst w))) l)
                    (bending_sim_data (fst w)),
             snd w)).

Definition set_bending_sim_data (d : list R * list sample) : M world_b unit :=
  modify (fun w => (mkGuiB (panel (fst w)) (Some d), snd w)).

Definition run_bending_simulation (fiber_type : string)
    (fixed_length_bending_entry bend_from_entry bend_to_entry temp_entry : entry R)
  : M world_b unit :=
  match fixed_length_bending_entry with
  | Some fixed_length =>
    match bend_from_entry, bend_to_entry with
    | Some bend_from, Some bend_to =>
      match temp_entry with
      | Some ambient_temp =>
        params <- lift (lookup fiber_type fiber_types) ;;
        let att_coeff := attenuation_coeff params in
        let base_bend_loss := base_bending_loss params in
        let ideal_bend_rad := ideal_bend_radius params in
        let bend_radii := linspace bend_from bend_to 100 in
        samples <- on_snd (for_each (fun R =>
            simulate_output_current_np fixed_length R ambient_temp att_coeff
              base_bend_loss ideal_bend_rad default_turns) bend_radii) ;;
        _ <- set_bending_sim_data (bend_radii, samples) ;;
        x <- lift (last_elem bend_radii) ;;
        last <- lift (last_elem samples) ;;
        set_label_b (BendingSim x last)
      | None => set_label_b (Message "Enter a valid ambient temperature (°C).")
      end
    | _, _ => set_label_b (Message "Enter valid bending radius range values (cm).")
    end
  | None =>
    set_label_b
      (Message "Enter a valid fixed fiber length (km) for bending simulation.")
  end.

End Sim8.

(** ** sim2.py: the script with module-level fibre constants *)

Module Sim2.

Definition I_in : R := 1000.0.
Definition attenuation_coeff : R := 0.00385.
Definition base_bending_loss : R := 0.2.
Definition number_of_bends : Z := 5.
Definition bend_angle : R := 90.0.
Definition ideal_bend_radius : R := 10.0.
Definition room_temperature : R := 25.0.
Definition temp_coefficient : R := 0.0002.

Definition bending_loss (bend_radius bend_angle_deg : R) : result R :=
  match div ideal_bend_radius bend_radius with
  | Ok q => Ok (base_bending_loss * q * (bend_angle_deg / 90.0))
  | Raise e => Raise e
  end.

(** [noise_std] is the keyword argument (0.02 when left out). *)
Definition simulate_output_current
    (fiber_length bend_radius ambient_temp noise_std : R) : M rng (R * R) :=
  let loss_attenuation := attenuation_coeff * fiber_length in
  let temp_loss :=
    temp_coefficient * Rabs (ambient_temp - room_temperature) * fiber_length in
  loss_per_bend <- lift (bending_loss bend_radius bend_angle) ;;
  let total_bending_loss := IZR number_of_bends * loss_per_bend in
  let total_loss := loss_attenuation + total_bending_loss + temp_loss in
  let I_out := I_in * pow10 (- total_loss / 10) in
  noise <- normal 0 (noise_std * I_out) ;;
  let I_out_noisy := I_out + noise in
  ret (I_out_noisy, total_loss).

End Sim2.

(** ** sim1.py: numerical aperture *)

Module Sim1.

(** [np.degrees]. *)
Definition degrees (x : R) : R := x * (180 / PI).

Definition calculate_numerical_aperture (D b : R) : result (R * R) :=
  match div D (2 * b) with
  | Ok q =>
    let theta := atan q in
    let NA := sin theta in
    let theta_deg := degrees theta in
    Ok (theta_deg, NA)
  | Raise e => Raise e
  end.

End Sim1.

(** ** sim3.py: Monte Carlo over randomly perturbed bends *)

Module Sim3.

Definition I_in : R := 1000.0.
Definition fiber_length : R := 5.0.
Definition attenuation_coeff : R := 0.00385.
Definition room_temp : R := 25.0.
Definition ambient_temp : R := 30.0.
Definition temp_coefficient : R := 0.0002.
Definition number_of_bends : nat := 5.
Definition ideal_bend_radius : R := 10.0.
Definition base_bending_loss : R := 0.2.

Definition random_bending_loss : M rng R :=
  bend_radius <- normal 5.0 0.5 ;;
  let bend_radius := Rmax bend_radius 1.0 in
  q <- lift (div ideal_bend_radius bend_radius) ;;
  let loss := base_bending_loss * q in
  ret loss.

(** [sum(random_bending_loss() for _ in range(n))]: starts from 0 and adds
    one draw after the other. *)
Fixpoint sum_bends (n : nat) (acc : R) : M rng R :=
  match n with
  | O => ret acc
  | S n' => l <- random_bending_loss ;; sum_bends n' (acc + l)
  end.

Definition simulate_ray : M rng (R * R) :=
  let loss_attenuation := attenuation_coeff * fiber_length in
  let loss_temp :=
    temp_coefficient * Rabs (ambient_temp - room_temp) * fiber_length in
  total_bending_loss <- sum_bends number_of_bends 0 ;;
  let total_loss := loss_attenuation + total_bending_loss + loss_temp in
  let I_out := I_in * pow10 (- total_loss / 10) in
  ret (I_out, total_loss).


(** Lines 40-45: the loop over the rays, appending to the two lists. *)
Fixpoint rays (n : nat) (ray_outputs ray_losses : list R)
  : M rng (list R * list R) :=
  match n with
  | O => ret (ray_outputs, ray_losses)
  | S n' =>
    '(I_out, loss) <- simulate_ray ;;
    rays n' (ray_outputs ++ [I_out]) (ray_losses ++ [loss])
  end.

(** [np.mean] of a list. *)
Definition mean (l : list R) : R := fold_right Rplus 0 l / INR (List.length l).

(** The script for [num_rays] rays: both lists and [avg_I_out]. *)
Definition monte_carlo (num_rays : nat) : M rng (list R * list R * R) :=
  '(ray_outputs, ray_losses) <- rays num_rays [] [] ;;
  let avg_I_out := mean ray_outputs in
  ret (ray_outputs, ray_losses, avg_I_out).

End Sim3.

(** ** sim4.py: stepwise propagation with random bend events *)

Module Sim4.

(** The body of the [for step in range(num_steps)] loop, run over the
    remaining steps with the running total and the profile built so far. *)
Fixpoint steps (dz ambient_temp room_temp attenuation_coeff temp_coefficient : R)
    (bend_event_indices : list Z) (todo : list Z)
    (total_loss_dB : R) (loss_profile : list R) : M rng (R * list R) :=
  match todo with
  | [] => ret (total_loss_dB, loss_profile)
  | step :: rest =>
    let loss_attenuation := attenuation_coeff * dz in
    let loss_temp := temp_coefficient * Rabs (ambient_temp - room_temp) * dz in
    let total_loss_dB := total_loss_dB + (loss_attenuation + loss_temp) in
    total_loss_dB <-
      (if contains step bend_event_indices
       then bending_loss_dB <- normal 0.2 0.05 ;;
            ret (total_loss_dB + bending_loss_dB)
       else ret total_loss_dB) ;;
    steps dz ambient_temp room_temp attenuation_coeff temp_coefficient
          bend_event_indices rest total_loss_dB (loss_profile ++ [total_loss_dB])
  end.

Definition hybrid_simulation (I_in fiber_length_km : R)
    (num_steps num_bend_events : Z)
    (ambient_temp room_temp attenuation_coeff temp_coefficient noise_std : R)
  : M rng (R * list R * list Z) :=
  dz <- lift (div fiber_length_km (IZR num_steps)) ;;
  chosen <- choice num_steps num_bend_events ;;
  let bend_event_indices := sort chosen in
  '(total_loss_dB, loss_profile) <-
    steps dz ambient_temp room_temp attenuation_coeff temp_coefficient
          bend_event_indices (arange 0 num_steps) 0 [] ;;
  p <- lift (float_pow10 (- total_loss_dB / 10)) ;;
  let I_out := I_in * p in
  noise <- normal_product 0 noise_std I_out ;;
  let I_out_noisy := I_out + noise in
  ret (I_out_noisy, loss_profile, bend_event_indices).

End Sim4.

(** ** sim12.py: the two bending-loss formulas behind the model selector

    Both are called on the NumPy scalars of a [linspace] (line 83), on which
    a division by zero does not raise but gives inf or nan.  The mode field
    diameter is a catalogue constant, never zero. *)

Module Sim12.

Definition bend_angle : R := 90.0.


(** At a zero radius the quotient is inf or nan, and so is the product. *)
Definition empirical_bending_loss
    (base_loss ideal_radius bend_radius bend_angle_deg : R) : np_float :=
  if Req_dec_T bend_radius 0 then NotFin
  else Fin (base_loss * (ideal_radius / bend_radius) * (bend_angle_deg / 90.0)).

Record fiber_params : Type := mkParams {
  attenuation_coeff : R;
  base_bending_loss : R;
  ideal_bend_radius : R;
  MFD : R;
  A : R;
  B : R
}.

Definition fiber_types : list (string * fiber_params) :=
  [ ("G.652D"%string, mkParams 0.20 0.10 5.0 9.2 0.2 1.5);
    ("G.657A"%string, mkParams 0.18 0.05 3.0 8.8 0.1 1.8);
    ("G.655"%string,  mkParams 0.22 0.15 5.0 10.0 0.25 1.3) ].

(** [fiber_types[name]]. *)
Fixpoint lookup (name : string) (d : list (string * fiber_params))
  : result fiber_params :=
  match d with
  | [] => Raise KeyError
  | (k, v) :: t => if String.eqb name k then Ok v else lookup name t
  end.


End Sim12.

(** ** sim13.py: the index-based exponential bending model *)

Module Sim13.

(** A Python number as these functions produce it: a float, or the complex
    number a fractional power of a negative float evaluates to. *)
Inductive pyval : Type :=
| VFloat (x : R)
| VComplex (re im : R).

(** [x ** (3/2)] for a float [x]: a negative base gives the complex power
    [|x|**1.5 * (cos(1.5*pi) + i sin(1.5*pi))]; a power too large for a
    float is an OverflowError. *)
Definition pow_3_2 (x : R) : result pyval :=
  if Rlt_dec x 0
  then and_then (checked (Rpower (Rabs x) (3 / 2)))
         (fun len => Ok (VComplex (len * cos (PI * (3 / 2)))
                                  (len * sin (PI * (3 / 2)))))
  else if Req_dec_T x 0 then Ok (VFloat 0)
  else and_then (checked (Rpower x (3 / 2))) (fun p => Ok (VFloat p)).

(** float [*] number *)
Definition scale (c : R) (v : pyval) : pyval :=
  match v with
  | VFloat x => VFloat (c * x)
  | VComplex re im => VComplex (c * re) (c * im)
  end.

(** float [+] number *)
Definition shift (c : R) (v : pyval) : pyval :=
  match v with
  | VFloat x => VFloat (c + x)
  | VComplex re im => VComplex (c + re) im
  end.

(** number [+] float *)
Definition shift_r (v : pyval) (c : R) : pyval :=
  match v with
  | VFloat x => VFloat (x + c)
  | VComplex re im => VComplex (re + c) im
  end.

(** [np.exp] *)
Definition np_exp (v : pyval) : pyval :=
  match v with
  | VFloat x => VFloat (exp x)
  | VComplex re im => VComplex (exp re * cos im) (exp re * sin im)
  end.

Definition default_turns : Z := 5.
Definition room_temperature : R := 25.0.
Definition temp_coefficient : R := 0.0000.
Definition noise_std : R := 0.00.

Definition bending_loss (core_radius n1 n2 wavelength bend_radius_cm : R)
  : result pyval :=
  let R_m := bend_radius_cm * 0.01 in
  and_then (div (PI * core_radius * n1) wavelength) (fun f =>
  and_then (checked (f ^ 2)) (fun factor =>
  and_then (div R_m core_radius) (fun q =>
  and_then (checked (n1 ^ 2)) (fun n1_sq =>
  and_then (checked (n2 ^ 2)) (fun n2_sq =>
  and_then (pow_3_2 (n1_sq - n2_sq)) (fun power =>
  let loss := scale (0.5 * factor) (np_exp (scale (- (4 / 3) * q) power)) in
  Ok loss)))))).

(** Lines 121-123.  The scale handed to [np.random.normal] is
    [noise_std * total_loss].  For a float total it carries the sign bit of
    the product.  A complex total is cast to its real part (with a
    ComplexWarning): that is 0.0*re - 0.0*im, a zero whose sign bit is set
    exactly when re is negative and im is not; the noise is then added to
    the complex total. *)
Definition add_noise (total_loss : pyval) : M rng pyval :=
  match total_loss with
  | VFloat x =>
    noise <- normal_product 0 noise_std x ;;
    ret (shift_r total_loss noise)
  | VComplex re im =>
    noise <- normal_signed 0 (noise_std * re)
               (andb (negative re) (negb (negative im))) ;;
    ret (shift_r total_loss noise)
  end.

Definition simulate_total_loss
    (fiber_length bend_radius_cm ambient_temp attenuation_coeff
     core_radius n1 n2 wavelength : R) (n_turns : Z) : M rng pyval :=
  let loss_attenuation := attenuation_coeff * fiber_length in
  let loss_temp :=
    temp_coefficient * Rabs (ambient_temp - room_temperature) * fiber_length in
  loss_per_bend <- lift (bending_loss core_radius n1 n2 wavelength bend_radius_cm) ;;
  let total_bending_loss := scale (IZR n_turns) loss_per_bend in
  let total_loss := shift_r (shift loss_attenuation total_bending_loss) loss_temp in
  add_noise total_loss.


Record fiber_params : Type := mkParams {
  attenuation_coeff : R;
  core_radius : R;
  n1 : R;
  n2 : R;
  wavelength : R
}.

Definition fiber_types : list (string * fiber_params) :=
  [ ("G.652D"%string, mkParams 0.20 0.0000041 1.4682 1.462 0.00000155);
    ("G.657A"%string, mkParams 0.18 0.0000041 1.4682 1.462 0.00000155);
    ("G.655"%string,  mkParams 0.22 0.0000041 1.4682 1.455 0.00000155);
    ("G.652C"%string, mkParams 0.22 0.0000041 1.4682 1.462 0.00000155);
    ("G.657B"%string, mkParams 0.18 0.0000041 1.4682 1.460 0.00000155);
    ("OM1"%string,    mkParams 3.0 0.00003125 1.50 1.46 0.00000085);
    ("OM3"%string,    mkParams 3.5 0.000025 1.48 1.46 0.00000085);
    ("OM4"%string,    mkParams 3.5 0.000025 1.48 1.46 0.00000085) ].

(** [fiber_types[name]]. *)
Fixpoint lookup (name : string) (d : list (string * fiber_params))
  : result fiber_params :=
  match d with
  | [] => Raise KeyError
  | (k, v) :: t => if String.eqb name k then Ok v else lookup name t
  end.

End Sim13.

(** ** sim11.py: the loss law whose result itself carries the noise *)

Module Sim11.

Definition default_turns : Z := 5.
Definition bend_angle : R := 90.0.
Definition room_temperature : R := 25.0.
Definition temp_coefficient : R := 0.0002.
Definition noise_std : R := 0.02.

Definition bending_loss (baseline ideal bend_radius bend_angle_deg : R)
  : result R :=
  match div ideal bend_radius with
  | Ok q => Ok (baseline * q * (bend_angle_deg / 90.0))
  | Raise e => Raise e
  end.

Definition simulate_total_loss
    (fiber_length bend_radius ambient_temp attenuation_coeff
     base_bending_loss ideal_bend_radius : R) (n_turns : Z) : M rng R :=
  let loss_attenuation := attenuation_coeff * fiber_length in
  let loss_temp :=
    temp_coefficient * Rabs (ambient_temp - room_temperature) * fiber_length in
  loss_per_bend <-
    lift (bending_loss base_bending_loss ideal_bend_radius bend_radius bend_angle) ;;
  let total_bending_loss := IZR n_turns * loss_per_bend in
  let total_loss := loss_attenuation + total_bending_loss + loss_temp in
  noise <- normal 0 (noise_std * total_loss) ;;
  ret (total_loss + noise).

End Sim11.

(** ** The loss law of sim8.py on binary64 numbers *)

Module F64.

Local Open Scope float_scope.

Definition I_in : float := 1000.0.
Definition bend_angle : float := 90.0.
Definition room_temperature : float := 25.0.
Definition temp_coefficient : float := 0.0002.

(** [float(n)] for a Python int of moderate size. *)
Definition of_int (n : Z) : float :=
  if (n <? 0)%Z then - of_uint63 (Uint63.of_Z (- n)) else of_uint63 (Uint63.of_Z n).

Definition bending_loss (baseline ideal bend_radius bend_angle_deg : float)
  : result float :=
  if PrimFloat.eqb bend_radius 0 then Raise ZeroDivisionError
  else Ok (baseline * (ideal / bend_radius) * (bend_angle_deg / 90.0)).

(** The [total_loss] that [simulate_output_current] returns as the second
    component of its pair. *)
Definition total_loss
    (fiber_length bend_radius ambient_temp attenuation_coeff
     base_bending_loss ideal_bend_radius : float) (n_turns : Z) : result float :=
  let loss_attenuation := attenuation_coeff * fiber_length in
  let loss_temp :=
    temp_coefficient * abs (ambient_temp - room_temperature) * fiber_length in
  match bending_loss base_bending_loss ideal_bend_radius bend_radius bend_angle with
  | Raise e => Raise e
  | Ok loss_per_bend =>
    let total_bending_loss := of_int n_turns * loss_per_bend in
    Ok (loss_attenuation + total_bending_loss + loss_temp)
  end.

(** [empirical_bending_loss] of sim12.py. *)
Definition empirical_bending_loss
    (base_loss ideal_radius bend_radius bend_angle_deg : float) : float :=
  base_loss * (ideal_radius / bend_radius) * (bend_angle_deg / 90.0).

End F64.

(** * Properties *)

(** ** Facts about the runtime *)

Lemma pow10_pos (x : R) : 0 < pow10 x.
Proof. unfold pow10, Rpower. apply exp_pos. Qed.

Lemma div_nonzero (x y : R) : y <> 0 -> div x y = Ok (x / y).
Proof. intros Hy. unfold div. destruct (Req_dec_T y 0); [contradiction | reflexivity]. Qed.

Lemma div_zero (x : R) : div x 0 = Raise ZeroDivisionError.
Proof. unfold div. destruct (Req_dec_T 0 0); [reflexivity | exfalso; auto]. Qed.

Lemma normal_ok (loc scale : R) (g : rng) :
  0 <= scale ->
  normal loc scale g = (Ok (loc + scale * gauss g (pos g)), advance g).
Proof.
  intros Hs. unfold normal. destruct (Rlt_dec scale 0); [lra | reflexivity].
Qed.

Lemma normal_refused (loc scale : R) (g : rng) :
  scale < 0 -> normal loc scale g = (Raise ValueError, g).
Proof.
  intros Hs. unfold normal. destruct (Rlt_dec scale 0); [reflexivity | lra].
Qed.

Lemma negative_true (x : R) : x < 0 -> negative x = true.
Proof. intros H. unfold negative. destruct (Rlt_dec x 0); [reflexivity | lra]. Qed.

Lemma negative_false (x : R) : 0 <= x -> negative x = false.
Proof. intros H. unfold negative. destruct (Rlt_dec x 0); [lra | reflexivity]. Qed.

Lemma normal_product_ok (loc s x : R) (g : rng) :
  0 <= s -> 0 <= x ->
  normal_product loc s x g = (Ok (loc + s * x * gauss g (pos g)), advance g).
Proof.
  intros Hs Hx. unfold normal_product, normal_signed.
  now rewrite (negative_false s Hs), (negative_false x Hx).
Qed.

Lemma normal_product_refused (loc s x : R) (g : rng) :
  0 <= s -> x < 0 -> normal_product loc s x g = (Raise ValueError, g).
Proof.
  intros Hs Hx. unfold normal_product, normal_signed.
  now rewrite (negative_false s Hs), (negative_true x Hx).
Qed.

Lemma checked_in_range (r : R) : Rabs r < overflow_bound -> checked r = Ok r.
Proof.
  intros H. unfold checked.
  destruct (Rle_dec overflow_bound (Rabs r)); [lra | reflexivity].
Qed.

Lemma pow10_le (x y : R) : x <= y -> pow10 x <= pow10 y.
Proof.
  intros H. unfold pow10, Rpower.
  assert (Hln : 0 < ln 10) by (rewrite <- ln_1; apply ln_increasing; lra).
  destruct H as [H | ->]; [| lra].
  apply Rlt_le, exp_increasing. nra.
Qed.

Lemma pow10_300 : pow10 300 = 10 ^ 300.
Proof.
  unfold pow10.
  replace 300 with (INR 300) at 1 by (rewrite INR_IZR_INZ; reflexivity).
  apply Rpower_pow. lra.
Qed.

(** Up to an exponent of 300, [10 ** x] fits a float. *)
Lemma float_pow10_in_range (x : R) : x <= 300 -> float_pow10 x = Ok (pow10 x).
Proof.
  intros H. unfold float_pow10. apply checked_in_range.
  pose proof (pow10_pos x) as Hp. rewrite Rabs_pos_eq by lra.
  pose proof (pow10_le x 300 H) as Hle. rewrite pow10_300 in Hle.
  unfold overflow_bound. lra.
Qed.

Lemma arange_length (a b : Z) : List.length (arange a b) = Z.to_nat (b - a).
Proof. unfold arange. now rewrite length_map, length_seq. Qed.

Lemma linspace_length (start stop : R) (num : nat) :
  List.length (linspace start stop num) = num.
Proof.
  destruct num as [|[|m]]; try reflexivity.
  unfold linspace. rewrite length_app, length_map, length_seq. simpl. lia.
Qed.

Lemma last_elem_app {A} (l : list A) (x : A) : last_elem (l ++ [x]) = Ok x.
Proof. unfold last_elem. now rewrite rev_app_distr. Qed.

Lemma last_elem_nonempty {A} (l : list A) :
  l <> [] -> exists x, last_elem l = Ok x.
Proof.
  intros Hl. destruct (exists_last Hl) as [l' [x ->]].
  exists x. apply last_elem_app.
Qed.

(** ** sim8.py: the loss law *)

(** Closed form of one call: with a non-zero bend radius the call succeeds,
    consumes one deviate and returns the deterministic total loss. *)
Lemma sim8_simulate_output_current_ok
    (L r T a b i : R) (n : Z) (g : rng) :
  r <> 0 ->
  let total := a * L + IZR n * (b * (i / r) * (Sim8.bend_angle / 90.0))
               + Sim8.temp_coefficient * Rabs (T - Sim8.room_temperature) * L in
  let I_out := Sim8.I_in * pow10 (- total / 10) in
  Sim8.simulate_output_current L r T a b i n g
  = (Ok (I_out + (0 + Sim8.noise_std * I_out * gauss g (pos g)), total), advance g).
Proof.
  intros Hr total I_out.
  unfold Sim8.simulate_output_current, Sim8.bending_loss, bind, lift, ret.
  rewrite (div_nonzero _ _ Hr).
  fold total. fold I_out.
  rewrite normal_ok; [reflexivity|].
  unfold I_out, Sim8.noise_std, Sim8.I_in.
  pose proof (pow10_pos (- total / 10)). nra.
Qed.

(** C1: for the G.652D catalogue entry (0.20 dB/km, 0.10 dB, 5.0 cm) with
    length 10 km, bend radius 5.0 cm, 5 turns and ambient temperature equal to
    the 25 degree reference, the loss law returns a total loss of exactly 2.5 dB
    whatever the noise draw: the bending term is 5 x 0.1 = 0.5 dB, the
    attenuation 2.0 dB and the temperature term 0.  The same holds for the
    binary64 evaluation of the arithmetic. *)
Theorem C1_reference_scenario_total_loss (g : rng) :
  exists p i_out,
    Sim8.lookup "G.652D" Sim8.fiber_types = Ok p
    /\ Sim8.simulate_output_current 10 5.0 25
         (Sim8.attenuation_coeff p) (Sim8.base_bending_loss p)
         (Sim8.ideal_bend_radius p) 5 g
       = (Ok (i_out, 2.5), advance g)
    /\ Sim8.bending_loss (Sim8.base_bending_loss p) (Sim8.ideal_bend_radius p)
         5.0 Sim8.bend_angle = Ok 0.1
    /\ IZR 5 * 0.1 = 0.5
    /\ Sim8.attenuation_coeff p * 10 = 2.0
    /\ Sim8.temp_coefficient * Rabs (25 - Sim8.room_temperature) * 10 = 0
    /\ F64.total_loss 10 5 25 0.20 0.10 5 5 = Ok 2.5%float.
Proof.
  exists (Sim8.mkParams 0.20 0.10 5.0).
  exists (Sim8.I_in * pow10 (Ropp 2.5 / 10)
          + (0 + Sim8.noise_std * (Sim8.I_in * pow10 (Ropp 2.5 / 10)) * gauss g (pos g))).
  split; [reflexivity|]. simpl.
  assert (Habs : Rabs (25 - Sim8.room_temperature) = 0).
  { unfold Sim8.room_temperature. replace (25 - 25.0) with 0 by lra. apply Rabs_R0. }
  split.
  { rewrite sim8_simulate_output_current_ok by lra.
    rewrite Habs. unfold Sim8.bend_angle, Sim8.temp_coefficient.
    replace (0.20 * 10 + 5 * (0.10 * (5.0 / 5.0) * (90.0 / 90.0)) + 0.0002 * 0 * 10)
      with 2.5 by lra.
    reflexivity. }
  split.
  { unfold Sim8.bending_loss. rewrite div_nonzero by lra.
    unfold Sim8.bend_angle. f_equal. lra. }
  split; [lra|]. split; [lra|]. split.
  { rewrite Habs. lra. }
  vm_compute. reflexivity.
Qed.

(** A zero bend radius makes the call raise before anything is drawn. *)
Lemma sim8_simulate_output_current_zero_radius
    (L T a b i : R) (n : Z) (g : rng) :
  Sim8.simulate_output_current L 0 T a b i n g = (Raise ZeroDivisionError, g).
Proof.
  unfold Sim8.simulate_output_current, Sim8.bending_loss, bind, lift.
  now rewrite div_zero.
Qed.

(** The same two facts for the script with module-level constants. *)
Lemma sim2_simulate_output_current_loss
    (L r T sigma : R) (g : rng) :
  returned_snd (fst (Sim2.simulate_output_current L r T sigma g))
  = if Req_dec_T r 0 then Raise ZeroDivisionError
    else if Rlt_dec (sigma * (Sim2.I_in * pow10
               (- (Sim2.attenuation_coeff * L
                   + IZR Sim2.number_of_bends
                     * (Sim2.base_bending_loss * (Sim2.ideal_bend_radius / r)
                        * (Sim2.bend_angle / 90.0))
                   + Sim2.temp_coefficient * Rabs (T - Sim2.room_temperature) * L)
                / 10))) 0
         then Raise ValueError
         else Ok (Sim2.attenuation_coeff * L
                  + IZR Sim2.number_of_bends
                    * (Sim2.base_bending_loss * (Sim2.ideal_bend_radius / r)
                       * (Sim2.bend_angle / 90.0))
                  + Sim2.temp_coefficient * Rabs (T - Sim2.room_temperature) * L).
Proof.
  unfold Sim2.simulate_output_current, Sim2.bending_loss, bind, lift, ret, div, normal.
  destruct (Req_dec_T r 0); [reflexivity|].
  match goal with |- context [Rlt_dec ?s 0] => destruct (Rlt_dec s 0) end;
    reflexivity.
Qed.

(** C10: the total loss returned by [simulate_output_current] does not depend
    on the state of the random generator: two runs with the same parameters
    and different noise draws return the same total loss (or raise the same
    exception), in sim8.py and in sim2.py alike; the draw only enters the
    output-current component. *)
Theorem C10_total_loss_independent_of_noise
    (L r T a b i sigma : R) (n : Z) (g1 g2 : rng) :
  returned_snd (fst (Sim8.simulate_output_current L r T a b i n g1))
  = returned_snd (fst (Sim8.simulate_output_current L r T a b i n g2))
  /\ returned_snd (fst (Sim2.simulate_output_current L r T sigma g1))
     = returned_snd (fst (Sim2.simulate_output_current L r T sigma g2)).
Proof.
  split.
  - destruct (Req_dec_T r 0) as [-> | Hr].
    + now rewrite !sim8_simulate_output_current_zero_radius.
    + now rewrite !sim8_simulate_output_current_ok by assumption.
  - now rewrite !sim2_simulate_output_current_loss.
Qed.

(** ** sim8.py: the sweeps *)

(** Every catalogue entry has positive coefficients. *)
Lemma sim8_catalogue_positive (name : string) (p : Sim8.fiber_params) :
  Sim8.lookup name Sim8.fiber_types = Ok p ->
  0 < Sim8.attenuation_coeff p
  /\ 0 < Sim8.base_bending_loss p
  /\ 0 < Sim8.ideal_bend_radius p.
Proof.
  unfold Sim8.fiber_types. simpl.
  repeat match goal with
         | |- context [String.eqb ?a ?b] => destruct (String.eqb a b)
         end;
    intros H; inversion H; subst; simpl; lra.
Qed.

(** The total loss of one sample of a sweep. *)
Lemma sim8_sweep_samples {A : Type}
    (call : A -> M rng (R * R)) (loss : A -> R) (xs : list A) (g : rng) :
  (forall x g0, exists i, call x g0 = (Ok (i, loss x), advance g0)) ->
  exists samples g',
    for_each call xs g = (Ok samples, g')
    /\ map snd samples = map loss xs
    /\ gauss g' = gauss g /\ perms g' = perms g
    /\ pos g' = (pos g + List.length xs)%nat.
Proof.
  intros Hcall. revert g.
  induction xs as [| x xs IH]; intros g.
  - exists [], g. simpl. repeat split; lia.
  - destruct (Hcall x g) as [i Hx].
    destruct (IH (advance g)) as (samples & g' & Hrun & Hmap & Hg & Hp & Hpos).
    exists ((i, loss x) :: samples), g'.
    simpl. unfold bind at 1. rewrite Hx.
    unfold bind at 1. rewrite Hrun. unfold ret.
    simpl in Hpos, Hg, Hp.
    repeat split; simpl; try congruence; lia.
Qed.


Lemma map_nonempty {A B} (f : A -> B) (l : list A) : l <> [] -> map f l <> [].
Proof. destruct l; simpl; congruence. Qed.

Lemma arange_nonempty (a b : Z) : (a < b)%Z -> arange a b <> [].
Proof.
  intros Hab Hnil. apply (f_equal (@List.length Z)) in Hnil.
  rewrite arange_length in Hnil. simpl in Hnil. lia.
Qed.


Lemma consecutive_sorted (a : Z) (n start : nat) :
  StronglySorted Z.lt (map (fun k => (a + Z.of_nat k)%Z) (seq start n)).
Proof.
  revert start. induction n as [| n IH]; intros start; simpl.
  - constructor.
  - constructor; [apply IH|].
    apply Forall_forall. intros y Hy.
    apply in_map_iff in Hy. destruct Hy as (j & <- & Hj).
    apply in_seq in Hj. lia.
Qed.






(** What a length sweep with parsed entries, a catalogued fibre and a
    non-zero bend radius does, whatever the bounds are. *)
Lemma sim8_run_length_runs
    (ft : string) (p : Sim8.fiber_params) (l1 l2 r T : R)
    (s : Sim8.gui) (g : rng) :
  Sim8.lookup ft Sim8.fiber_types = Ok p ->
  r <> 0 ->
  exists samples lbl g',
    Sim8.run_length_simulation ft (Some l1) (Some l2) (Some T) (Some r) (s, g)
    = (Ok tt,
       (Sim8.mkGui (Some (linspace l1 l2 100, map fst samples, map snd samples))
                   (Sim8.turns_sim_data s) lbl, g'))
    /\ List.length samples = 100%nat
    /\ pos g' = (pos g + 100)%nat.
Proof.
  intros Hp Hr.
  set (loss := fun L : R =>
    Sim8.attenuation_coeff p * L
    + IZR Sim8.default_turns
      * (Sim8.base_bending_loss p * (Sim8.ideal_bend_radius p / r)
         * (Sim8.bend_angle / 90.0))
    + Sim8.temp_coefficient * Rabs (T - Sim8.room_temperature) * L).
  destruct (sim8_sweep_samples
              (fun L => Sim8.simulate_output_current L r T
                          (Sim8.attenuation_coeff p) (Sim8.base_bending_loss p)
                          (Sim8.ideal_bend_radius p) Sim8.default_turns)
              loss (linspace l1 l2 100) g)
    as (samples & g' & Hrun & Hmap & _ & _ & Hpos).
  { intros L g0. eexists.
    rewrite sim8_simulate_output_current_ok by assumption. reflexivity. }
  assert (Hlen : List.length samples = 100%nat).
  { rewrite <- (length_map snd), Hmap, length_map. apply linspace_length. }
  assert (Hne : linspace l1 l2 100 <> []).
  { intros Hnil. apply (f_equal (@List.length R)) in Hnil.
    rewrite linspace_length in Hnil. discriminate. }
  assert (Hs : samples <> []) by (intros ->; discriminate).
  destruct (last_elem_nonempty _ Hne) as [x Hlast_x].
  destruct (last_elem_nonempty _ (map_nonempty fst _ Hs)) as [i Hlast_i].
  destruct (last_elem_nonempty _ (map_nonempty snd _ Hs)) as [l Hlast_l].
  exists samples, (Sim8.LengthSim x i l), g'.
  split; [| split; [exact Hlen|]].
  - unfold Sim8.run_length_simulation.
    unfold bind, lift, on_snd, Sim8.set_length_sim_data, Sim8.set_label, modify.
    rewrite Hp. cbn [fst snd]. rewrite Hrun. cbn [fst snd].
    rewrite Hlast_x, Hlast_i, Hlast_l. reflexivity.
  - rewrite Hpos, linspace_length. reflexivity.
Qed.

(** A sweep request with start > end is served: the length sweep from 10 km
    down to 1 km on G.652D returns normally and stores 100 samples. *)
Lemma C6_descending_length_sweep_is_served :
  1 < 10
  /\ exists lengths currents losses lbl g',
       Sim8.run_length_simulation "G.652D" (Some 10) (Some 1) (Some 25) (Some 5)
         (Sim8.mkGui None None Sim8.Initial, mkRng (fun _ => 0) (fun _ => []) 0)
       = (Ok tt, (Sim8.mkGui (Some (lengths, currents, losses)) None lbl, g'))
       /\ List.length lengths = 100%nat
       /\ List.length currents = 100%nat
       /\ List.length losses = 100%nat
       /\ pos g' = 100%nat.
Proof.
  split; [lra|].
  destruct (sim8_run_length_runs "G.652D" (Sim8.mkParams 0.20 0.10 5.0)
              10 1 5 25 (Sim8.mkGui None None Sim8.Initial)
              (mkRng (fun _ => 0) (fun _ => []) 0))
    as (samples & lbl & g' & Hrun & Hlen & Hpos); [reflexivity | lra |].
  exists (linspace 10 1 100), (map fst samples), (map snd samples), lbl, g'.
  split; [exact Hrun|].
  rewrite linspace_length, !length_map.
  repeat split; assumption.
Qed.

(** A loop whose body always succeeds and draws once collects one result
    per element. *)
Lemma for_each_total {A B : Type} (call : A -> M rng B) (xs : list A) (g : rng) :
  (forall x g0, exists y, call x g0 = (Ok y, advance g0)) ->
  exists ys g',
    for_each call xs g = (Ok ys, g') /\ List.length ys = List.length xs.
Proof.
  intros Hcall. revert g.
  induction xs as [| x xs IH]; intros g.
  - exists [], g. split; reflexivity.
  - destruct (Hcall x g) as [y Hx].
    destruct (IH (advance g)) as (ys & g' & Hrun & Hlen).
    exists (y :: ys), g'. simpl. unfold bind at 1. rewrite Hx.
    unfold bind at 1. rewrite Hrun. unfold ret. simpl. auto.
Qed.

(** One sample of the bend-radius sweep never raises. *)
Lemma sim8_simulate_output_current_np_total
    (L r T a b i : R) (n : Z) (g : rng) :
  exists y, Sim8.simulate_output_current_np L r T a b i n g = (Ok y, advance g).
Proof.
  unfold Sim8.simulate_output_current_np.
  destruct (Req_dec_T r 0) as [Hr | Hr].
  - now exists Sim8.NonFinite.
  - unfold bind. rewrite sim8_simulate_output_current_ok by assumption.
    eexists. reflexivity.
Qed.

(** What a bend-radius sweep with parsed entries and a catalogued fibre does,
    whatever the bounds are. *)
Lemma sim8_run_bending_runs
    (ft : string) (p : Sim8.fiber_params) (L b1 b2 T : R)
    (s : Sim8.gui_b) (g : rng) :
  Sim8.lookup ft Sim8.fiber_types = Ok p ->
  exists samples lbl g',
    Sim8.run_bending_simulation ft (Some L) (Some b1) (Some b2) (Some T) (s, g)
    = (Ok tt,
       (Sim8.mkGuiB (Sim8.mkGui (Sim8.length_sim_data (Sim8.panel s))
                                (Sim8.turns_sim_data (Sim8.panel s)) lbl)
                    (Some (linspace b1 b2 100, samples)), g'))
    /\ List.length samples = 100%nat.
Proof.
  intros Hp.
  destruct (for_each_total
              (fun R => Sim8.simulate_output_current_np L R T
                          (Sim8.attenuation_coeff p) (Sim8.base_bending_loss p)
                          (Sim8.ideal_bend_radius p) Sim8.default_turns)
              (linspace b1 b2 100) g)
    as (samples & g' & Hrun & Hlen).
  { intros R g0. apply sim8_simulate_output_current_np_total. }
  rewrite linspace_length in Hlen.
  assert (Hne : linspace b1 b2 100 <> []).
  { intros Hnil. apply (f_equal (@List.length R)) in Hnil.
    rewrite linspace_length in Hnil. discriminate. }
  assert (Hs : samples <> []) by (intros ->; discriminate).
  destruct (last_elem_nonempty _ Hne) as [x Hlast_x].
  destruct (last_elem_nonempty _ Hs) as [y Hlast_y].
  exists samples, (Sim8.BendingSim x y), g'.
  split; [| exact Hlen].
  unfold Sim8.run_bending_simulation.
  unfold bind, lift, on_snd, Sim8.set_bending_sim_data, Sim8.set_label_b, modify.
  rewrite Hp. cbn [fst snd]. rewrite Hrun. cbn [fst snd].
  rewrite Hlast_x, Hlast_y. reflexivity.
Qed.

(** C6, as the code has it: the three sweep callbacks check only that their
    entry texts parse.  When any entry of a callback does not parse as a
    number (for the bounds of a turn sweep: as an integer) the callback sets
    a message, computes no sample and leaves the stored data and the
    generator untouched.  There is no check of the range: for any parsed
    bounds, start > end and start <= 0 included, a length sweep (catalogued
    fibre, non-zero bend radius) and a bend-radius sweep (catalogued fibre)
    complete and store exactly 100 samples. *)
Theorem C6_sweeps_check_parsing_only
    (ft : string) (s : Sim8.gui_b) (g : rng) :
  (forall p l1 l2 T r,
      Sim8.lookup ft Sim8.fiber_types = Ok p -> r <> 0 ->
      exists currents losses lbl g',
        Sim8.run_length_simulation ft (Some l1) (Some l2) (Some T) (Some r)
          (Sim8.panel s, g)
        = (Ok tt,
           (Sim8.mkGui (Some (linspace l1 l2 100, currents, losses))
                       (Sim8.turns_sim_data (Sim8.panel s)) lbl, g'))
        /\ List.length (linspace l1 l2 100) = 100%nat
        /\ List.length currents = 100%nat
        /\ List.length losses = 100%nat)
  /\ (forall p L b1 b2 T,
         Sim8.lookup ft Sim8.fiber_types = Ok p ->
         exists samples lbl g',
           Sim8.run_bending_simulation ft (Some L) (Some b1) (Some b2) (Some T) (s, g)
           = (Ok tt,
              (Sim8.mkGuiB (Sim8.mkGui (Sim8.length_sim_data (Sim8.panel s))
                                       (Sim8.turns_sim_data (Sim8.panel s)) lbl)
                           (Some (linspace b1 b2 100, samples)), g'))
           /\ List.length (linspace b1 b2 100) = 100%nat
           /\ List.length samples = 100%nat)
  /\ (forall e1 e2 eT er : Sim8.entry R,
         e1 = None \/ e2 = None \/ eT = None \/ er = None ->
         exists msg,
           Sim8.run_length_simulation ft e1 e2 eT er (Sim8.panel s, g)
           = (Ok tt,
              (Sim8.mkGui (Sim8.length_sim_data (Sim8.panel s))
                          (Sim8.turns_sim_data (Sim8.panel s))
                          (Sim8.Message msg), g)))
  /\ (forall (eL : Sim8.entry R) (e1 e2 : Sim8.entry Z) (er eT : Sim8.entry R),
         eL = None \/ e1 = None \/ e2 = None \/ er = None \/ eT = None ->
         exists msg,
           Sim8.run_turns_simulation ft eL e1 e2 er eT (Sim8.panel s, g)
           = (Ok tt,
              (Sim8.mkGui (Sim8.length_sim_data (Sim8.panel s))
                          (Sim8.turns_sim_data (Sim8.panel s))
                          (Sim8.Message msg), g)))
  /\ (forall eL e1 e2 eT : Sim8.entry R,
         eL = None \/ e1 = None \/ e2 = None \/ eT = None ->
         exists msg,
           Sim8.run_bending_simulation ft eL e1 e2 eT (s, g)
           = (Ok tt,
              (Sim8.mkGuiB (Sim8.mkGui (Sim8.length_sim_data (Sim8.panel s))
                                       (Sim8.turns_sim_data (Sim8.panel s))
                                       (Sim8.Message msg))
                           (Sim8.bending_sim_data s), g))).
Proof.
  split; [| split; [| split; [| split]]].
  - intros p l1 l2 T r Hp Hr.
    destruct (sim8_run_length_runs ft p l1 l2 r T (Sim8.panel s) g Hp Hr)
      as (samples & lbl & g' & Hrun & Hlen & _).
    exists (map fst samples), (map snd samples), lbl, g'.
    rewrite linspace_length, !length_map. auto.
  - intros p L b1 b2 T Hp.
    destruct (sim8_run_bending_runs ft p L b1 b2 T s g Hp)
      as (samples & lbl & g' & Hrun & Hlen).
    exists samples, lbl, g'. rewrite linspace_length. auto.
  - intros e1 e2 eT er H.
    destruct e1 as [x1|], e2 as [x2|], eT as [xT|], er as [xr|];
      try (eexists; reflexivity).
    destruct H as [H | [H | [H | H]]]; discriminate.
  - intros eL e1 e2 er eT H.
    destruct eL as [xL|], e1 as [x1|], e2 as [x2|], er as [xr|], eT as [xT|];
      try (eexists; reflexivity).
    destruct H as [H | [H | [H | [H | H]]]]; discriminate.
  - intros eL e1 e2 eT H.
    destruct eL as [xL|], e1 as [x1|], e2 as [x2|], eT as [xT|];
      try (eexists; reflexivity).
    destruct H as [H | [H | [H | H]]]; discriminate.
Qed.

Lemma C6_sweeps_check_parsing_only_witness :
  (exists currents losses lbl g',
      Sim8.run_length_simulation "G.657A" (Some (-2)) (Some (-7)) (Some 30) (Some 3)
        (Sim8.mkGui None None Sim8.Initial, mkRng (fun _ => 1) (fun _ => []) 0)
      = (Ok tt,
         (Sim8.mkGui (Some (linspace (-2) (-7) 100, currents, losses)) None lbl, g'))
      /\ List.length currents = 100%nat)
  /\ (exists samples lbl g',
         Sim8.run_bending_simulation "G.657A" (Some 10) (Some 5) (Some 0) (Some 30)
           (Sim8.mkGuiB (Sim8.mkGui None None Sim8.Initial) None,
            mkRng (fun _ => 1) (fun _ => []) 0)
         = (Ok tt,
            (Sim8.mkGuiB (Sim8.mkGui None None lbl)
                         (Some (linspace 5 0 100, samples)), g'))
         /\ List.length samples = 100%nat).
Proof.
  destruct (C6_sweeps_check_parsing_only "G.657A"
              (Sim8.mkGuiB (Sim8.mkGui None None Sim8.Initial) None)
              (mkRng (fun _ => 1) (fun _ => []) 0)) as (Hlen & Hbend & _).
  split.
  - destruct (Hlen (Sim8.mkParams 0.18 0.05 3.0) (-2) (-7) 30 3)
      as (currents & losses & lbl & g' & Heq & _ & Hc & _).
    + reflexivity.
    + lra.
    + exists currents, losses, lbl, g'. split; assumption.
  - destruct (Hbend (Sim8.mkParams 0.18 0.05 3.0) 10 5 0 30)
      as (samples & lbl & g' & Heq & _ & Hs).
    + reflexivity.
    + exists samples, lbl, g'. split; assumption.
Defined.

(** ** Sorting and ranges *)

(** [np.sort] as modelled: the same elements, in non-decreasing order. *)
Lemma insert_permutation (x : Z) (l : list Z) : Permutation (insert x l) (x :: l).
Proof.
  induction l as [| y t IH]; simpl.
  - apply Permutation_refl.
  - destruct (x <=? y)%Z.
    + apply Permutation_refl.
    + eapply perm_trans; [apply perm_skip, IH | apply perm_swap].
Qed.

Lemma sort_permutation (l : list Z) : Permutation (sort l) l.
Proof.
  induction l as [| x t IH]; simpl.
  - apply Permutation_refl.
  - eapply perm_trans; [apply insert_permutation | apply perm_skip, IH].
Qed.

Lemma insert_sorted (x : Z) (l : list Z) :
  StronglySorted Z.le l -> StronglySorted Z.le (insert x l).
Proof.
  induction 1 as [| y t Hs IH Hy]; simpl.
  - repeat constructor.
  - destruct (x <=? y)%Z eqn:E.
    + apply Z.leb_le in E. constructor; [now constructor|].
      constructor; [exact E|].
      eapply Forall_impl; [| exact Hy]. intros z Hz. lia.
    + apply Z.leb_gt in E. constructor; [exact IH|].
      apply (Permutation_Forall (Permutation_sym (insert_permutation x t))).
      constructor; [lia | exact Hy].
Qed.

Lemma sort_sorted (l : list Z) : StronglySorted Z.le (sort l).
Proof.
  induction l as [| x t IH]; simpl; [constructor | now apply insert_sorted].
Qed.

Lemma sorted_nodup_strict (l : list Z) :
  StronglySorted Z.le l -> NoDup l -> StronglySorted Z.lt l.
Proof.
  induction 1 as [| a l Hs IH Ha]; intros Hnd; [constructor|].
  inversion Hnd as [| a' l' Hnotin Hnd']; subst.
  constructor; [now apply IH|].
  apply Forall_forall. intros y Hy.
  assert (a <= y)%Z by (eapply Forall_forall in Ha; eauto).
  assert (a <> y) by (intros ->; contradiction).
  lia.
Qed.

Lemma strict_sorted_nodup (l : list Z) : StronglySorted Z.lt l -> NoDup l.
Proof.
  induction 1 as [| a l Hs IH Ha]; constructor; [| exact IH].
  intros Hin. eapply Forall_forall in Ha; [| exact Hin]. lia.
Qed.

Lemma arange_nodup (a b : Z) : NoDup (arange a b).
Proof. apply strict_sorted_nodup. unfold arange. apply consecutive_sorted. Qed.

Lemma arange_in (a b x : Z) : In x (arange a b) -> (a <= x < b)%Z.
Proof.
  unfold arange. intros Hin. apply in_map_iff in Hin.
  destruct Hin as (i & <- & Hi). apply in_seq in Hi. lia.
Qed.

(** ** sim4.py: the hybrid step simulator *)

(** The loop extends the profile by one entry per step and takes one deviate
    per event step; when the per-step deterministic loss is non-negative and
    the draws of the event steps are non-negative, the entries never
    decrease. *)
Lemma sim4_steps_nondecreasing
    (dz Ta Tr a tc : R) (idx todo : list Z) (total : R) (profile : list R) (g : rng) :
  0 <= a * dz + tc * Rabs (Ta - Tr) * dz ->
  (forall j, (j < List.length (filter (fun s => contains s idx) todo))%nat ->
             0 <= 0.2 + 0.05 * gauss g (pos g + j)) ->
  exists total' added g',
    Sim4.steps dz Ta Tr a tc idx todo total profile g
    = (Ok (total', profile ++ added), g')
    /\ List.length added = List.length todo
    /\ Sorted Rle (total :: added)
    /\ total <= total'
    /\ gauss g' = gauss g /\ perms g' = perms g.
Proof.
  intros Hd. revert total profile g.
  induction todo as [| step rest IH]; intros total profile g Hev.
  - exists total, [], g. simpl. rewrite app_nil_r.
    repeat split; auto. lra.
  - simpl. unfold bind at 1. simpl in Hev.
    destruct (contains step idx) eqn:Hc.
    + unfold bind at 1. rewrite normal_ok by lra. unfold ret at 1.
      set (t1 := total + (a * dz + tc * Rabs (Ta - Tr) * dz)
                 + (0.2 + 0.05 * gauss g (pos g))).
      assert (H0 : 0 <= 0.2 + 0.05 * gauss g (pos g)).
      { specialize (Hev 0%nat). rewrite Nat.add_0_r in Hev.
        apply Hev. simpl. lia. }
      destruct (IH t1 (profile ++ [t1]) (advance g))
        as (total' & added & g' & Hrun & Hlen & Hs & Hle & Hg & Hp).
      { intros j Hj. simpl.
        replace (S (pos g + j)) with (pos g + S j)%nat by lia.
        apply Hev. simpl. lia. }
      exists total', (t1 :: added), g'.
      rewrite Hrun, <- app_assoc. simpl.
      repeat split; auto.
      * constructor; [exact Hs|]. constructor. unfold t1. lra.
      * unfold t1 in Hle. lra.
    + unfold ret at 1.
      set (t1 := total + (a * dz + tc * Rabs (Ta - Tr) * dz)).
      destruct (IH t1 (profile ++ [t1]) g Hev)
        as (total' & added & g' & Hrun & Hlen & Hs & Hle & Hg & Hp).
      exists total', (t1 :: added), g'.
      rewrite Hrun, <- app_assoc. simpl.
      repeat split; auto.
      * constructor; [exact Hs|]. constructor. unfold t1. lra.
      * unfold t1 in Hle. lra.
Qed.

(** At most as many steps are event steps as there are event indices. *)
Lemma sim4_event_steps_bounded (idx : list Z) (a b : Z) :
  (List.length (filter (fun s => contains s idx) (arange a b))
   <= List.length idx)%nat.
Proof.
  apply NoDup_incl_length.
  - apply NoDup_filter, strict_sorted_nodup.
    unfold arange. apply consecutive_sorted.
  - intros x Hx. apply filter_In in Hx. destruct Hx as [_ Hc].
    unfold contains in Hc. apply existsb_exists in Hc.
    destruct Hc as (y & Hy & Heq). apply Z.eqb_eq in Heq. now subst.
Qed.

(** A run in which the event draw is negative: two steps over 5 km, one event
    at step 1 whose Gaussian deviate is -5, so that the event "loss" is
    0.2 - 0.25 = -0.05 dB.  The cumulative loss falls from 0.012125 dB after
    step 0 to -0.02575 dB after step 1. *)
Lemma C4_negative_event_draw_lowers_the_trace :
  exists i_out g',
    Sim4.hybrid_simulation 1000 5 2 1 30 25 0.00385 0.0002 0.02
      (mkRng (fun _ => -5) (fun _ => [1; 0]%Z) 0)
    = (Ok (i_out, [0.012125; -0.02575], [1%Z]), g')
    /\ ~ Sorted Rle [0.012125; -0.02575].
Proof.
  assert (Habs : Rabs (30 - 25) = 5).
  { replace (30 - 25) with 5 by lra. apply Rabs_pos_eq. lra. }
  eexists _, _. split.
  - unfold Sim4.hybrid_simulation.
    unfold bind at 1. unfold lift. rewrite div_nonzero by lra.
    unfold bind at 1. unfold choice. simpl.
    unfold bind, ret. rewrite normal_ok by lra. simpl. rewrite Habs.
    replace (0 + (0.00385 * (5 / 2) + 0.0002 * 5 * (5 / 2))) with 0.012125 by lra.
    replace (0.012125 + (0.00385 * (5 / 2) + 0.0002 * 5 * (5 / 2)) + (0.2 + 0.05 * -5))
      with (-0.02575) by lra.
    unfold lift. rewrite float_pow10_in_range by lra.
    rewrite normal_product_ok
      by (try lra; pose proof (pow10_pos (- -0.02575 / 10)); nra).
    reflexivity.
  - intros Hs. inversion Hs as [| x l Hl Hrel]; subst.
    inversion Hrel as [| y l' Hle]; subst. lra.
Qed.

(** C4, as the code has it: the cumulative-loss trace is non-decreasing when
    length, attenuation and temperature coefficients are non-negative, input
    current and noise level are positive (magnitudes up to 1e100, at most
    2^31 steps) and the Gaussian draws 0.2 + 0.05 z of the event steps, the
    num_bend_events deviates that follow the index selection, are
    non-negative.  The run then completes, and the trace has one entry per
    step.  Nothing bounds an event draw from below, so a negative draw can
    lower the trace. *)
Theorem C4_trace_nondecreasing_for_nonnegative_draws
    (I_in L : R) (num_steps num_bend_events : Z) (Ta Tr a tc sigma : R) (g : rng) :
  (0 < num_steps < 2 ^ 31)%Z ->
  (0 <= num_bend_events <= num_steps)%Z ->
  0 < I_in <= 1e100 -> 0 < sigma <= 1e100 ->
  0 <= L <= 1e100 -> 0 <= a <= 1e100 -> 0 <= tc <= 1e100 ->
  Rabs Ta <= 1e100 -> Rabs Tr <= 1e100 ->
  (forall j, (j < Z.to_nat num_bend_events)%nat ->
             0 <= 0.2 + 0.05 * gauss g (S (pos g) + j)) ->
  exists i_out loss_profile events g',
    Sim4.hybrid_simulation I_in L num_steps num_bend_events Ta Tr a tc sigma g
    = (Ok (i_out, loss_profile, events), g')
    /\ List.length loss_profile = Z.to_nat num_steps
    /\ Sorted Rle loss_profile.
Proof.
  intros Hn Hev HI Hsig HL Ha Htc _ _ Hdraws.
  assert (Hn0 : IZR num_steps <> 0).
  { apply not_0_IZR. lia. }
  assert (Hdz : 0 <= L / IZR num_steps).
  { apply Rmult_le_pos; [apply HL|].
    apply Rlt_le, Rinv_0_lt_compat, (IZR_lt 0). lia. }
  assert (Hdelta : 0 <= a * (L / IZR num_steps)
                        + tc * Rabs (Ta - Tr) * (L / IZR num_steps)).
  { assert (0 <= tc * Rabs (Ta - Tr))
      by (apply Rmult_le_pos; [apply Htc | apply Rabs_pos]).
    assert (0 <= a * (L / IZR num_steps))
      by (apply Rmult_le_pos; [apply Ha | assumption]).
    assert (0 <= tc * Rabs (Ta - Tr) * (L / IZR num_steps))
      by (apply Rmult_le_pos; assumption).
    lra. }
  unfold Sim4.hybrid_simulation.
  unfold bind at 1. unfold lift at 1. rewrite (div_nonzero _ _ Hn0).
  unfold bind at 1. unfold choice.
  rewrite arange_length.
  replace (Z.of_nat (Z.to_nat (num_steps - 0))) with num_steps by lia.
  assert (E1 : (num_steps <? num_bend_events)%Z = false) by (apply Z.ltb_ge; lia).
  assert (E2 : (num_bend_events <? 0)%Z = false) by (apply Z.ltb_ge; lia).
  rewrite E1, E2.
  unfold bind at 1. unfold permutation, ret at 1.
  set (idx := sort (firstn (Z.to_nat num_bend_events) (perms g (pos g)))).
  assert (Hidx : (List.length idx <= Z.to_nat num_bend_events)%nat).
  { unfold idx. rewrite (Permutation_length (sort_permutation _)).
    apply firstn_le_length. }
  destruct (sim4_steps_nondecreasing (L / IZR num_steps) Ta Tr a tc idx
              (arange 0 num_steps) 0 [] (advance g) Hdelta)
    as (total & added & g1 & Hrun & Hlen & Hsorted & Htot & _).
  { intros j Hj. simpl. apply Hdraws.
    pose proof (sim4_event_steps_bounded idx 0 num_steps). lia. }
  unfold bind at 1. rewrite Hrun. simpl.
  unfold bind at 1. unfold lift. rewrite float_pow10_in_range by lra.
  unfold bind at 1.
  rewrite normal_product_ok
    by first [lra | apply Rmult_le_pos; [lra | apply Rlt_le, pow10_pos]].
  unfold ret.
  eexists _, _, _, _. split; [reflexivity|].
  split.
  - rewrite Hlen, arange_length. f_equal. lia.
  - now apply Sorted_inv in Hsorted.
Qed.

Lemma C4_trace_nondecreasing_for_nonnegative_draws_witness :
  exists i_out loss_profile events g',
    Sim4.hybrid_simulation 1000 5 4 2 30 25 0.00385 0.0002 0.02
      (mkRng (fun k => match k with 1%nat | 2%nat => 1 | _ => -9 end)
             (fun _ => [2; 0; 3; 1]%Z) 0)
    = (Ok (i_out, loss_profile, events), g')
    /\ List.length loss_profile = 4%nat
    /\ Sorted Rle loss_profile.
Proof.
  apply (C4_trace_nondecreasing_for_nonnegative_draws
           1000 5 4 2 30 25 0.00385 0.0002 0.02
           (mkRng (fun k => match k with 1%nat | 2%nat => 1 | _ => -9 end)
                  (fun _ => [2; 0; 3; 1]%Z) 0));
    try lia; try lra.
  - rewrite Rabs_pos_eq; lra.
  - rewrite Rabs_pos_eq; lra.
  - intros j Hj. simpl in Hj. simpl.
    destruct j as [| [| j]]; [lra | lra | lia].
Defined.

(** ** sim3.py: the Monte Carlo simulator *)

(** One bend event: the radius actually used is at least 1 cm, so the loss
    of the event lies in (0, 2]. *)
Lemma sim3_random_bending_loss_spec (g : rng) :
  let radius := Rmax (5.0 + 0.5 * gauss g (pos g)) 1.0 in
  Sim3.random_bending_loss g
  = (Ok (Sim3.base_bending_loss * (Sim3.ideal_bend_radius / radius)), advance g)
  /\ 1.0 <= radius
  /\ 0 < Sim3.base_bending_loss * (Sim3.ideal_bend_radius / radius) <= 2.0.
Proof.
  intros radius.
  assert (Hr : 1.0 <= radius) by apply Rmax_r.
  split; [| split; [exact Hr|]].
  - unfold Sim3.random_bending_loss.
    unfold bind at 1. rewrite normal_ok by lra.
    fold radius. unfold bind, lift, ret.
    rewrite div_nonzero by lra. reflexivity.
  - unfold Sim3.base_bending_loss, Sim3.ideal_bend_radius.
    assert (Hinv : 0 < / radius <= 1).
    { split; [apply Rinv_0_lt_compat; lra|].
      rewrite <- Rinv_1. apply Rinv_le_contravar; lra. }
    unfold Rdiv. lra.
Qed.

(** The sum over the bends of one ray moves the accumulator up by at most
    2 dB per bend, and never down. *)
Lemma sim3_sum_bends_spec (n : nat) (acc : R) (g : rng) :
  exists total g',
    Sim3.sum_bends n acc g = (Ok total, g')
    /\ acc <= total <= acc + 2.0 * INR n
    /\ gauss g' = gauss g /\ perms g' = perms g
    /\ pos g' = (pos g + n)%nat.
Proof.
  revert acc g. induction n as [| n IH]; intros acc g.
  - exists acc, g. simpl. repeat split; try lra; lia.
  - destruct (sim3_random_bending_loss_spec g) as (Hrun & _ & Hl).
    cbv zeta in Hrun, Hl.
    set (l := Sim3.base_bending_loss
              * (Sim3.ideal_bend_radius / Rmax (5.0 + 0.5 * gauss g (pos g)) 1.0))
      in *.
    destruct (IH (acc + l) (advance g)) as (total & g' & Hrec & Hb & Hg & Hp & Hpos).
    exists total, g'.
    cbn [Sim3.sum_bends]. unfold bind at 1. rewrite Hrun, Hrec.
    rewrite S_INR. simpl in Hg, Hp, Hpos.
    repeat split; try lra; try congruence; lia.
Qed.

(** C9: every per-event bend radius is floored at 1.0 cm before it is used, so
    for every state of the generator the per-event bending loss lies in
    (0, base_bending_loss x ideal_bend_radius / 1.0] = (0, 2.0] dB, and the
    total loss of a trial is at least the fixed attenuation-plus-temperature
    term (and at most 10 dB above it, for the 5 bends). *)
Theorem C9_monte_carlo_radius_floor (g : rng) :
  (exists radius loss,
      Sim3.random_bending_loss g = (Ok loss, advance g)
      /\ radius = Rmax (5.0 + 0.5 * gauss g (pos g)) 1.0
      /\ 1.0 <= radius
      /\ loss = Sim3.base_bending_loss * (Sim3.ideal_bend_radius / radius)
      /\ 0 < loss <= Sim3.base_bending_loss * Sim3.ideal_bend_radius / 1.0
      /\ Sim3.base_bending_loss * Sim3.ideal_bend_radius / 1.0 = 2.0)
  /\ (exists i_out total_loss g',
         Sim3.simulate_ray g = (Ok (i_out, total_loss), g')
         /\ Sim3.attenuation_coeff * Sim3.fiber_length
            + Sim3.temp_coefficient * Rabs (Sim3.ambient_temp - Sim3.room_temp)
              * Sim3.fiber_length
            <= total_loss
         /\ total_loss
            <= Sim3.attenuation_coeff * Sim3.fiber_length
               + Sim3.temp_coefficient * Rabs (Sim3.ambient_temp - Sim3.room_temp)
                 * Sim3.fiber_length
               + 10.0
         /\ pos g' = (pos g + 5)%nat).
Proof.
  split.
  - destruct (sim3_random_bending_loss_spec g) as (Hrun & Hr & Hl).
    cbv zeta in Hrun, Hr, Hl.
    eexists _, _. split; [exact Hrun|].
    split; [reflexivity|]. split; [exact Hr|]. split; [reflexivity|].
    assert (Htop : Sim3.base_bending_loss * Sim3.ideal_bend_radius / 1.0 = 2.0).
    { unfold Sim3.base_bending_loss, Sim3.ideal_bend_radius. lra. }
    rewrite Htop. auto.
  - destruct (sim3_sum_bends_spec Sim3.number_of_bends 0 g)
      as (total & g' & Hrun & Hb & _ & _ & Hpos).
    unfold Sim3.simulate_ray. unfold bind. rewrite Hrun. unfold ret.
    eexists _, _, _. split; [reflexivity|].
    unfold Sim3.number_of_bends in Hb, Hpos. simpl in Hb.
    repeat split; try lra. exact Hpos.
Qed.

(** ** sim1.py: the numerical-aperture calculator *)

(** A non-positive spot diameter is not refused: D = -1.15 mm at b = 100 mm
    returns normally, with a negative angle. *)
Lemma C7_nonpositive_diameter_is_accepted :
  -1.15 <= 0
  /\ Sim1.calculate_numerical_aperture (-1.15) 100
     = Ok (Sim1.degrees (atan (-1.15 / (2 * 100))), sin (atan (-1.15 / (2 * 100))))
  /\ Sim1.degrees (atan (-1.15 / (2 * 100))) < 0.
Proof.
  split; [lra|]. split.
  - unfold Sim1.calculate_numerical_aperture. rewrite div_nonzero by lra. reflexivity.
  - unfold Sim1.degrees.
    assert (Ha : atan (-1.15 / (2 * 100)) < 0).
    { rewrite <- atan_0. apply atan_increasing. lra. }
    pose proof PI_RGT_0 as Hpi.
    assert (Hk : 0 < 180 / PI) by (apply Rdiv_lt_0_compat; lra).
    nra.
Qed.

(** C7, as the code has it: the calculator does not validate its inputs.  For
    every D and every non-zero b of magnitude up to 1e300 (so that 2 b is a
    finite float), negative values included, it returns
    theta = arctan(D/(2b)) in degrees and NA = sin(theta); on Python numbers
    its only failure is the ZeroDivisionError of the division at b = 0. *)
Theorem C7_numerical_aperture_unvalidated (D b : R) :
  (b <> 0 -> Rabs b <= 1e300 ->
   Sim1.calculate_numerical_aperture D b
   = Ok (atan (D / (2 * b)) * (180 / PI), sin (atan (D / (2 * b)))))
  /\ (b = 0 -> Sim1.calculate_numerical_aperture D b = Raise ZeroDivisionError).
Proof.
  split.
  - intros Hb _. unfold Sim1.calculate_numerical_aperture.
    rewrite div_nonzero by lra. reflexivity.
  - intros ->. unfold Sim1.calculate_numerical_aperture.
    replace (2 * 0) with 0 by lra. now rewrite div_zero.
Qed.

Lemma C7_numerical_aperture_unvalidated_witness :
  Sim1.calculate_numerical_aperture 1.15 (-100)
  = Ok (atan (1.15 / (2 * -100)) * (180 / PI), sin (atan (1.15 / (2 * -100))))
  /\ Sim1.calculate_numerical_aperture 1.15 0 = Raise ZeroDivisionError.
Proof.
  split.
  - apply (C7_numerical_aperture_unvalidated 1.15 (-100)); [lra|].
    rewrite Rabs_left; lra.
  - apply (C7_numerical_aperture_unvalidated 1.15 0). reflexivity.
Defined.

(** ** sim12.py and sim13.py: the bending-loss formulas *)

Lemma Rpower_pos (x y : R) : 0 < Rpower x y.
Proof. unfold Rpower. apply exp_pos. Qed.

Lemma Rpower_3_2_bound (x : R) :
  0 < x -> x <= 10000 -> Rpower x (3 / 2) <= 100000000.
Proof.
  intros H0 Hx.
  apply Rle_trans with (Rpower 10000 (3 / 2)).
  - apply Rle_Rpower_l; lra.
  - apply Rle_trans with (Rpower 10000 (INR 2)).
    + apply Rle_Rpower; simpl; lra.
    + rewrite Rpower_pow by lra. lra.
Qed.

Lemma overflow_bound_large : 1e30 < overflow_bound.
Proof. unfold overflow_bound. lra. Qed.

(** The three cases of the fractional power, for a base of magnitude up to
    10^4. *)
Lemma sim13_pow_3_2_pos (x : R) :
  0 < x -> x <= 10000 ->
  Sim13.pow_3_2 x = Ok (Sim13.VFloat (Rpower x (3 / 2))).
Proof.
  intros H0 Hx. unfold Sim13.pow_3_2.
  destruct (Rlt_dec x 0); [lra|]. destruct (Req_dec_T x 0); [lra|].
  rewrite checked_in_range; [reflexivity|].
  pose proof (Rpower_3_2_bound x H0 Hx). pose proof (Rpower_pos x (3 / 2)).
  pose proof overflow_bound_large. rewrite Rabs_pos_eq; lra.
Qed.

Lemma sim13_pow_3_2_zero : Sim13.pow_3_2 0 = Ok (Sim13.VFloat 0).
Proof.
  unfold Sim13.pow_3_2.
  destruct (Rlt_dec 0 0); [lra|]. destruct (Req_dec_T 0 0); [reflexivity | lra].
Qed.

Lemma sim13_pow_3_2_neg (x : R) :
  x < 0 -> -10000 <= x ->
  Sim13.pow_3_2 x
  = Ok (Sim13.VComplex (Rpower (Rabs x) (3 / 2) * cos (PI * (3 / 2)))
                       (Rpower (Rabs x) (3 / 2) * sin (PI * (3 / 2)))).
Proof.
  intros H0 Hx. unfold Sim13.pow_3_2. destruct (Rlt_dec x 0); [| lra].
  rewrite checked_in_range; [reflexivity|].
  assert (Ha : 0 < Rabs x <= 10000) by (rewrite Rabs_left; lra).
  pose proof (Rpower_3_2_bound (Rabs x) (proj1 Ha) (proj2 Ha)).
  pose proof (Rpower_pos (Rabs x) (3 / 2)).
  pose proof overflow_bound_large. rewrite Rabs_pos_eq; lra.
Qed.

Lemma Rabs_mult_le (x y bx b_y : R) :
  Rabs x <= bx -> Rabs y <= b_y -> Rabs (x * y) <= bx * b_y.
Proof.
  intros Hx Hy. rewrite Rabs_mult.
  apply Rmult_le_compat; auto using Rabs_pos.
Qed.

(** For a core radius and a wavelength between 1 nm and 1 m and indices of
    at most 100 no power before the fractional one overflows. *)
Lemma sim13_bending_loss_steps (a n1 n2 lam Rcm : R) :
  1e-9 <= a <= 1 -> 1e-9 <= lam <= 1 -> 0 <= n1 <= 100 -> 0 <= n2 <= 100 ->
  Sim13.bending_loss a n1 n2 lam Rcm
  = and_then (Sim13.pow_3_2 (n1 ^ 2 - n2 ^ 2))
      (fun power =>
         Ok (Sim13.scale (0.5 * (PI * a * n1 / lam) ^ 2)
               (Sim13.np_exp (Sim13.scale (- (4 / 3) * (Rcm * 0.01 / a)) power)))).
Proof.
  intros Ha Hl H1 H2. unfold Sim13.bending_loss.
  rewrite (div_nonzero _ lam) by lra. rewrite (div_nonzero _ a) by lra.
  cbn [and_then].
  pose proof overflow_bound_large as Hbig.
  assert (Hf : Rabs ((PI * a * n1 / lam) ^ 2) < overflow_bound).
  { rewrite <- RPow_abs.
    assert (Hb : Rabs (PI * a * n1 / lam) <= 4 * 1 * 100 * 1e9).
    { unfold Rdiv.
      apply Rabs_mult_le; [apply Rabs_mult_le; [apply Rabs_mult_le |] |].
      - rewrite Rabs_pos_eq; [apply Rtrigo1.PI_4 | apply Rlt_le, PI_RGT_0].
      - rewrite Rabs_pos_eq; lra.
      - rewrite Rabs_pos_eq; lra.
      - assert (Hi : 0 < / lam) by (apply Rinv_0_lt_compat; lra).
        assert (He : lam * / lam = 1) by (field; lra).
        rewrite Rabs_pos_eq; nra. }
    assert (Hp : Rabs (PI * a * n1 / lam) ^ 2 <= (4 * 1 * 100 * 1e9) ^ 2).
    { apply pow_incr. split; [apply Rabs_pos | exact Hb]. }
    lra. }
  rewrite (checked_in_range _ Hf). cbn [and_then].
  rewrite (checked_in_range (n1 ^ 2)) by (rewrite Rabs_pos_eq; nra).
  cbn [and_then].
  rewrite (checked_in_range (n2 ^ 2)) by (rewrite Rabs_pos_eq; nra).
  reflexivity.
Qed.

(** With a guided fibre (n1^2 > n2^2) the formula is the real expression of
    the docstring. *)
Lemma sim13_bending_loss_guided (a n1 n2 lam Rcm : R) :
  1e-9 <= a <= 1 -> 1e-9 <= lam <= 1 -> 0 <= n1 <= 100 -> 0 <= n2 <= 100 ->
  0 < n1 ^ 2 - n2 ^ 2 ->
  Sim13.bending_loss a n1 n2 lam Rcm
  = Ok (Sim13.VFloat
          (0.5 * (PI * a * n1 / lam) ^ 2
           * exp (- (4 / 3) * (Rcm * 0.01 / a) * Rpower (n1 ^ 2 - n2 ^ 2) (3 / 2)))).
Proof.
  intros Ha Hl H1 H2 Hn.
  rewrite sim13_bending_loss_steps by assumption.
  rewrite sim13_pow_3_2_pos by nra. reflexivity.
Qed.

(** With equal squares the exponent is 0 and the loss is the bare prefactor. *)
Lemma sim13_bending_loss_equal_indices (a n1 n2 lam Rcm : R) :
  1e-9 <= a <= 1 -> 1e-9 <= lam <= 1 -> 0 <= n1 <= 100 -> 0 <= n2 <= 100 ->
  n1 ^ 2 - n2 ^ 2 = 0 ->
  Sim13.bending_loss a n1 n2 lam Rcm
  = Ok (Sim13.VFloat (0.5 * (PI * a * n1 / lam) ^ 2)).
Proof.
  intros Ha Hl H1 H2 Hn.
  rewrite sim13_bending_loss_steps by assumption.
  rewrite Hn, sim13_pow_3_2_zero. simpl.
  rewrite Rmult_0_r, exp_0. do 2 f_equal. ring.
Qed.

(** With n1^2 < n2^2 the power is complex and so is the loss that comes back. *)
Lemma sim13_bending_loss_unguided (a n1 n2 lam Rcm : R) :
  1e-9 <= a <= 1 -> 1e-9 <= lam <= 1 -> 0 <= n1 <= 100 -> 0 <= n2 <= 100 ->
  n1 ^ 2 - n2 ^ 2 < 0 ->
  exists re im, Sim13.bending_loss a n1 n2 lam Rcm = Ok (Sim13.VComplex re im).
Proof.
  intros Ha Hl H1 H2 Hn.
  rewrite sim13_bending_loss_steps by assumption.
  rewrite sim13_pow_3_2_neg by nra. simpl. eexists _, _. reflexivity.
Qed.

Lemma squares_ordered (n1 n2 : R) : 0 <= n2 -> n2 < n1 -> 0 < n1 ^ 2 - n2 ^ 2.
Proof. intros H0 H. nra. Qed.








(** The OM3 entry with its two indices exchanged (n1 = 1.46 < n2 = 1.48) is
    not refused: the formula is evaluated and a complex number comes back. *)
Lemma C5_unguided_spec_is_evaluated :
  1.46 <= 1.48
  /\ exists re im,
       Sim13.bending_loss 0.000025 1.46 1.48 0.00000085 5
       = Ok (Sim13.VComplex re im).
Proof.
  split; [lra|].
  apply sim13_bending_loss_unguided; lra.
Qed.

(** C5, as the code has it: the index-based model has no check of n1 against
    n2 and no InvalidFiberSpec error.  For a core radius and a wavelength
    between 1 nm and 1 m, indices 1 <= n1 <= n2 <= 100 and a bend radius of
    magnitude up to 1000 cm the formula is evaluated and a value is returned
    without any exception: for n1 = n2 the real number
    (pi a n1 / lambda)^2 / 2, for n1 < n2 a complex number, the fractional
    power of the negative base n1^2 - n2^2. *)
Theorem C5_unguided_spec_not_rejected (a n1 n2 lam Rcm : R) :
  1e-9 <= a <= 1 -> 1e-9 <= lam <= 1 -> 1 <= n1 -> n1 <= n2 -> n2 <= 100 ->
  Rabs Rcm <= 1000 ->
  exists v,
    Sim13.bending_loss a n1 n2 lam Rcm = Ok v
    /\ (n1 = n2 -> v = Sim13.VFloat (0.5 * (PI * a * n1 / lam) ^ 2))
    /\ (n1 < n2 -> exists re im, v = Sim13.VComplex re im).
Proof.
  intros Ha Hl H1 Hn H2 _.
  destruct (Rle_lt_or_eq_dec _ _ Hn) as [Hlt | Heq].
  - destruct (sim13_bending_loss_unguided a n1 n2 lam Rcm) as (re & im & Hrun);
      [lra | lra | lra | lra | nra |].
    exists (Sim13.VComplex re im). split; [exact Hrun|]. split.
    + intros ->. lra.
    + intros _. now exists re, im.
  - subst n2. eexists. split.
    + apply sim13_bending_loss_equal_indices; [lra | lra | lra | lra | ring].
    + split; [reflexivity | intros; lra].
Qed.

Lemma C5_unguided_spec_not_rejected_witness :
  exists v,
    Sim13.bending_loss 0.000025 1.46 1.46 0.00000085 5 = Ok v
    /\ v = Sim13.VFloat (0.5 * (PI * 0.000025 * 1.46 / 0.00000085) ^ 2).
Proof.
  destruct (C5_unguided_spec_not_rejected 0.000025 1.46 1.46 0.00000085 5)
    as (v & Hrun & Heq & _); try lra.
  - rewrite Rabs_pos_eq; lra.
  - exists v. split; [exact Hrun | apply Heq; reflexivity].
Defined.

(** Every catalogued fibre is a guided one, with dimensions and indices in
    the range where no power overflows. *)
Lemma sim13_catalogue_guided (name : string) (p : Sim13.fiber_params) :
  Sim13.lookup name Sim13.fiber_types = Ok p ->
  0.18 <= Sim13.attenuation_coeff p <= 3.5
  /\ 1e-9 <= Sim13.core_radius p <= 1
  /\ 1e-9 <= Sim13.wavelength p <= 1
  /\ 0 <= Sim13.n2 p /\ Sim13.n2 p < Sim13.n1 p /\ Sim13.n1 p <= 100.
Proof.
  unfold Sim13.fiber_types. simpl.
  repeat match goal with
         | |- context [String.eqb ?a ?b] => destruct (String.eqb a b)
         end;
    intros H; inversion H; subst; simpl; lra.
Qed.

(** The noise step: a positive total is returned as it is, after one draw;
    a negative total makes the scale a negative zero, which is refused. *)
Lemma sim13_add_noise_positive (x : R) (g : rng) :
  0 < x -> Sim13.add_noise (Sim13.VFloat x) g = (Ok (Sim13.VFloat x), advance g).
Proof.
  intros Hx. unfold Sim13.add_noise, Sim13.noise_std, bind.
  rewrite normal_product_ok by lra. unfold ret, Sim13.shift_r.
  replace (x + (0 + 0.00 * x * gauss g (pos g))) with x by nra.
  reflexivity.
Qed.

Lemma sim13_add_noise_negative (x : R) (g : rng) :
  x < 0 -> Sim13.add_noise (Sim13.VFloat x) g = (Raise ValueError, g).
Proof.
  intros Hx. unfold Sim13.add_noise, Sim13.noise_std, bind.
  rewrite normal_product_refused by lra. reflexivity.
Qed.

(** With a real loss per bend and a positive total the noise step adds
    nothing. *)
Lemma sim13_simulate_total_loss_real
    (L Rcm T att a n1 n2 lam per_bend : R) (n : Z) (g : rng) :
  Sim13.bending_loss a n1 n2 lam Rcm = Ok (Sim13.VFloat per_bend) ->
  0 < att * L + IZR n * per_bend ->
  Sim13.simulate_total_loss L Rcm T att a n1 n2 lam n g
  = (Ok (Sim13.VFloat
           (att * L + IZR n * per_bend
            + Sim13.temp_coefficient * Rabs (T - Sim13.room_temperature) * L)),
     advance g).
Proof.
  intros Hrun Hpos.
  unfold Sim13.simulate_total_loss, bind, lift. rewrite Hrun.
  cbn [Sim13.scale Sim13.shift Sim13.shift_r].
  apply sim13_add_noise_positive.
  unfold Sim13.temp_coefficient. lra.
Qed.

(** The loss per bend of a catalogued fibre at a bend radius >= 0. *)
Lemma sim13_catalogue_per_bend (name : string) (p : Sim13.fiber_params) (Rcm : R) :
  Sim13.lookup name Sim13.fiber_types = Ok p ->
  0 <= Rcm ->
  exists per_bend,
    Sim13.bending_loss (Sim13.core_radius p) (Sim13.n1 p) (Sim13.n2 p)
      (Sim13.wavelength p) Rcm
    = Ok (Sim13.VFloat per_bend)
    /\ 0 <= per_bend
       <= 0.5 * (PI * Sim13.core_radius p * Sim13.n1 p / Sim13.wavelength p) ^ 2.
Proof.
  intros Hp HR.
  destruct (sim13_catalogue_guided name p Hp) as (_ & Ha & Hl & Hn2 & Hn & Hn1).
  pose proof (squares_ordered _ _ Hn2 Hn) as Hsq.
  eexists. split; [apply sim13_bending_loss_guided; lra|].
  set (f := 0.5 * (PI * Sim13.core_radius p * Sim13.n1 p / Sim13.wavelength p) ^ 2).
  set (e := - (4 / 3) * (Rcm * 0.01 / Sim13.core_radius p)
            * Rpower (Sim13.n1 p ^ 2 - Sim13.n2 p ^ 2) (3 / 2)).
  assert (Hf : 0 <= f).
  { unfold f.
    pose proof (pow2_ge_0 (PI * Sim13.core_radius p * Sim13.n1 p / Sim13.wavelength p)).
    lra. }
  assert (He : e <= 0).
  { unfold e.
    pose proof (Rpower_pos (Sim13.n1 p ^ 2 - Sim13.n2 p ^ 2) (3 / 2)) as HP.
    assert (Hq : 0 <= Rcm * 0.01 / Sim13.core_radius p).
    { apply Rmult_le_pos; [lra | apply Rlt_le, Rinv_0_lt_compat; lra]. }
    nra. }
  assert (Hexp : 0 < exp e <= 1).
  { split; [apply exp_pos|].
    destruct He as [He | ->]; [| rewrite exp_0; lra].
    rewrite <- exp_0. apply Rlt_le, exp_increasing. exact He. }
  nra.
Qed.

(** With the relative standard deviation [noise_std] = 0 of sim13.py, the
    scale handed to the generator for a total of -3.5 is the negative zero
    0.00 * -3.5: the noise step raises ValueError instead of returning the
    signal. *)
Lemma C8_negative_signal_is_refused :
  Sim13.add_noise (Sim13.VFloat (-3.5)) (mkRng (fun _ => 3) (fun _ => []) 0)
  = (Raise ValueError, mkRng (fun _ => 3) (fun _ => []) 0).
Proof. apply sim13_add_noise_negative. lra. Qed.

(** C8, as the code has it: with [noise_std] = 0 the noise step returns a
    positive signal exactly, after one draw, for every state of the
    generator, and refuses a negative signal with ValueError (its scale
    0.00 * signal is a negative zero).  For a catalogued fibre, a length
    between 1e-50 and 1e50 km, a bend radius between 0 and 1e50 cm and
    0 to 2^31 turns the total is positive, and [simulate_total_loss] returns
    the deterministic sum of attenuation, bending and temperature terms. *)
Theorem C8_zero_noise_returns_positive_signal (signal : R) (g : rng) :
  (0 < signal ->
   Sim13.add_noise (Sim13.VFloat signal) g = (Ok (Sim13.VFloat signal), advance g))
  /\ (signal < 0 ->
      Sim13.add_noise (Sim13.VFloat signal) g = (Raise ValueError, g))
  /\ (forall name p L Rcm T n,
         Sim13.lookup name Sim13.fiber_types = Ok p ->
         1e-50 <= L <= 1e50 -> 0 <= Rcm <= 1e50 -> Rabs T <= 1e50 ->
         (0 <= n <= 2 ^ 31)%Z ->
         exists per_bend,
           Sim13.bending_loss (Sim13.core_radius p) (Sim13.n1 p) (Sim13.n2 p)
             (Sim13.wavelength p) Rcm
           = Ok (Sim13.VFloat per_bend)
           /\ Sim13.simulate_total_loss L Rcm T (Sim13.attenuation_coeff p)
                (Sim13.core_radius p) (Sim13.n1 p) (Sim13.n2 p)
                (Sim13.wavelength p) n g
              = (Ok (Sim13.VFloat
                       (Sim13.attenuation_coeff p * L + IZR n * per_bend
                        + Sim13.temp_coefficient
                          * Rabs (T - Sim13.room_temperature) * L)),
                 advance g)).
Proof.
  split; [apply sim13_add_noise_positive|].
  split; [apply sim13_add_noise_negative|].
  intros name p L Rcm T n Hp HL HR _ Hn.
  destruct (sim13_catalogue_per_bend name p Rcm Hp (proj1 HR))
    as (per_bend & Hrun & Hb).
  destruct (sim13_catalogue_guided name p Hp) as (Hatt & _).
  exists per_bend. split; [exact Hrun|].
  apply sim13_simulate_total_loss_real; [exact Hrun|].
  assert (H0 : 0 <= IZR n) by (apply IZR_le; lia).
  assert (0 <= IZR n * per_bend) by (apply Rmult_le_pos; lra).
  assert (0 < Sim13.attenuation_coeff p * L) by (apply Rmult_lt_0_compat; lra).
  lra.
Qed.

Lemma C8_zero_noise_returns_positive_signal_witness :
  Sim13.add_noise (Sim13.VFloat 17.5) (mkRng (fun _ => 3) (fun _ => []) 0)
  = (Ok (Sim13.VFloat 17.5), advance (mkRng (fun _ => 3) (fun _ => []) 0))
  /\ Sim13.add_noise (Sim13.VFloat (-17.5)) (mkRng (fun _ => 3) (fun _ => []) 0)
     = (Raise ValueError, mkRng (fun _ => 3) (fun _ => []) 0)
  /\ exists per_bend,
       Sim13.simulate_total_loss 10 5 30 3.5 0.000025 1.48 1.46 0.00000085 5
         (mkRng (fun _ => 3) (fun _ => []) 0)
       = (Ok (Sim13.VFloat
                (3.5 * 10 + IZR 5 * per_bend
                 + Sim13.temp_coefficient * Rabs (30 - Sim13.room_temperature) * 10)),
          advance (mkRng (fun _ => 3) (fun _ => []) 0)).
Proof.
  split; [| split].
  - apply (C8_zero_noise_returns_positive_signal 17.5). lra.
  - apply (C8_zero_noise_returns_positive_signal (-17.5)). lra.
  - destruct (C8_zero_noise_returns_positive_signal 1
                (mkRng (fun _ => 3) (fun _ => []) 0)) as (_ & _ & Hs).
    destruct (Hs "OM3"%string (Sim13.mkParams 3.5 0.000025 1.48 1.46 0.00000085)
                10 5 30 5%Z)
      as (per_bend & _ & Hrun);
      [reflexivity | lra | lra | rewrite Rabs_pos_eq; lra | lia |].
    exists per_bend. exact Hrun.
Defined.

(** * Further properties of the code *)

(** ** sim8.py: edges of the sweeps *)

Lemma arange_empty (a b : Z) : (b <= a)%Z -> arange a b = [].
Proof.
  intros H. unfold arange. replace (Z.to_nat (b - a)) with 0%nat by lia. reflexivity.
Qed.

(** A turn sweep over an empty range (turn_to < turn_from) draws nothing,
    stores three empty series and then fails with IndexError on
    [n_turns_array[-1]]; the label keeps its old text.  The bend radius is
    never used, so even a zero radius goes unnoticed. *)
Theorem sim8_turn_sweep_empty_range
    (ft : string) (p : Sim8.fiber_params) (L r T : R) (n1 n2 : Z)
    (s : Sim8.gui) (g : rng) :
  Sim8.lookup ft Sim8.fiber_types = Ok p ->
  (n2 < n1)%Z ->
  Sim8.run_turns_simulation ft (Some L) (Some n1) (Some n2) (Some r) (Some T) (s, g)
  = (Raise IndexError,
     (Sim8.mkGui (Sim8.length_sim_data s) (Some ([], [], [])) (Sim8.result_label s),
      g)).
Proof.
  intros Hp Hn.
  unfold Sim8.run_turns_simulation.
  unfold bind, lift, on_snd, Sim8.set_turns_sim_data, modify.
  rewrite Hp. rewrite arange_empty by lia. reflexivity.
Qed.

Lemma sim8_turn_sweep_empty_range_witness :
  Sim8.run_turns_simulation "G.655" (Some 2) (Some 7%Z) (Some 3%Z) (Some 0) (Some 25)
    (Sim8.mkGui None None Sim8.Initial, mkRng (fun _ => 0) (fun _ => []) 4)
  = (Raise IndexError,
     (Sim8.mkGui None (Some ([], [], [])) Sim8.Initial,
      mkRng (fun _ => 0) (fun _ => []) 4)).
Proof.
  apply (sim8_turn_sweep_empty_range "G.655" (Sim8.mkParams 0.22 0.15 5.0)).
  - reflexivity.
  - lia.
Defined.

(** The first sample of a sweep with bend radius 0 raises: nothing is
    collected. *)
Lemma sim8_for_each_zero_radius {A : Type} (call : A -> M rng (R * R))
    (x : A) (xs : list A) (g : rng) :
  call x g = (Raise ZeroDivisionError, g) ->
  for_each call (x :: xs) g = (Raise ZeroDivisionError, g).
Proof. intros H. simpl. unfold bind. now rewrite H. Qed.

(** A bend radius of 0 makes a length sweep, and a turn sweep over a
    non-empty range, fail with ZeroDivisionError at the first sample: the
    stored series, the label and the generator are as they were. *)
Theorem sim8_sweeps_zero_radius
    (ft : string) (p : Sim8.fiber_params) (s : Sim8.gui) (g : rng) :
  Sim8.lookup ft Sim8.fiber_types = Ok p ->
  (forall l1 l2 T,
      Sim8.run_length_simulation ft (Some l1) (Some l2) (Some T) (Some 0) (s, g)
      = (Raise ZeroDivisionError, (s, g)))
  /\ (forall L T n1 n2,
         (n1 <= n2)%Z ->
         Sim8.run_turns_simulation ft (Some L) (Some n1) (Some n2) (Some 0) (Some T)
           (s, g)
         = (Raise ZeroDivisionError, (s, g))).
Proof.
  intros Hp. split.
  - intros l1 l2 T.
    unfold Sim8.run_length_simulation. unfold bind at 1. unfold lift. rewrite Hp.
    unfold bind at 1. unfold on_snd. cbn [fst snd].
    change (linspace l1 l2 100)
      with (map (fun i => INR i * ((l2 - l1) / INR 99) + l1) (seq 0 99) ++ [l2]).
    cbn [seq map app].
    rewrite sim8_for_each_zero_radius; [reflexivity|].
    apply sim8_simulate_output_current_zero_radius.
  - intros L T n1 n2 Hn.
    unfold Sim8.run_turns_simulation. unfold bind at 1. unfold lift. rewrite Hp.
    unfold bind at 1. unfold on_snd. cbn [fst snd].
    destruct (arange n1 (n2 + 1)) as [| n ns] eqn:Ha.
    + exfalso. apply (arange_nonempty n1 (n2 + 1)); [lia | exact Ha].
    + rewrite sim8_for_each_zero_radius; [reflexivity|].
      apply sim8_simulate_output_current_zero_radius.
Qed.

Lemma sim8_sweeps_zero_radius_witness :
  Sim8.run_length_simulation "G.652D" (Some 1) (Some 10) (Some 25) (Some 0)
    (Sim8.mkGui None None Sim8.Initial, mkRng (fun _ => 0) (fun _ => []) 0)
  = (Raise ZeroDivisionError,
     (Sim8.mkGui None None Sim8.Initial, mkRng (fun _ => 0) (fun _ => []) 0)).
Proof.
  apply (sim8_sweeps_zero_radius "G.652D" (Sim8.mkParams 0.20 0.10 5.0)).
  reflexivity.
Defined.

Lemma sim8_lookup_missing (name : string) (d : list (string * Sim8.fiber_params)) :
  ~ In name (map fst d) -> Sim8.lookup name d = Raise KeyError.
Proof.
  induction d as [| [k v] d IH]; intros Hn; simpl in *.
  - reflexivity.
  - destruct (String.eqb name k) eqn:E.
    + apply String.eqb_eq in E. exfalso. apply Hn. left. now symmetry.
    + apply IH. intros Hin. apply Hn. now right.
Qed.

Lemma sim8_lookup_present (name : string) (d : list (string * Sim8.fiber_params)) :
  In name (map fst d) -> exists p, Sim8.lookup name d = Ok p /\ In (name, p) d.
Proof.
  induction d as [| [k v] d IH]; intros Hin; simpl in *.
  - contradiction.
  - destruct (String.eqb name k) eqn:E.
    + apply String.eqb_eq in E. subst k. exists v. auto.
    + destruct Hin as [-> | Hin]; [rewrite String.eqb_refl in E; discriminate|].
      destruct (IH Hin) as (p & Hp & Hi). exists p. auto.
Qed.

(** The catalogue answers exactly for its five names.  A sweep asked for any
    other fibre fails with KeyError after the entries were parsed and before
    anything is computed: stored series, label and generator are unchanged. *)
Theorem sim8_unknown_fibre (ft : string) (s : Sim8.gui) (g : rng) :
  (In ft ["G.652D"; "G.657A"; "G.655"; "G.652C"; "G.657B"]%string ->
   exists p, Sim8.lookup ft Sim8.fiber_types = Ok p)
  /\ (~ In ft ["G.652D"; "G.657A"; "G.655"; "G.652C"; "G.657B"]%string ->
      Sim8.lookup ft Sim8.fiber_types = Raise KeyError
      /\ (forall l1 l2 T r,
             Sim8.run_length_simulation ft (Some l1) (Some l2) (Some T) (Some r) (s, g)
             = (Raise KeyError, (s, g)))
      /\ (forall L n1 n2 r T,
             Sim8.run_turns_simulation ft (Some L) (Some n1) (Some n2) (Some r) (Some T)
               (s, g)
             = (Raise KeyError, (s, g)))).
Proof.
  split.
  - intros Hin. destruct (sim8_lookup_present ft Sim8.fiber_types Hin) as (p & Hp & _).
    now exists p.
  - intros Hn. pose proof (sim8_lookup_missing ft Sim8.fiber_types Hn) as Hk.
    split; [exact Hk|]. split.
    + intros. unfold Sim8.run_length_simulation, bind, lift. now rewrite Hk.
    + intros. unfold Sim8.run_turns_simulation, bind, lift. now rewrite Hk.
Qed.

Lemma sim8_unknown_fibre_witness :
  (exists p, Sim8.lookup "G.657B" Sim8.fiber_types = Ok p)
  /\ Sim8.lookup "OM3" Sim8.fiber_types = Raise KeyError.
Proof.
  destruct (sim8_unknown_fibre "G.657B" (Sim8.mkGui None None Sim8.Initial)
              (mkRng (fun _ => 0) (fun _ => []) 0)) as [Hin _].
  destruct (sim8_unknown_fibre "OM3" (Sim8.mkGui None None Sim8.Initial)
              (mkRng (fun _ => 0) (fun _ => []) 0)) as [_ Hout].
  split.
  - apply Hin. simpl. auto 10.
  - apply Hout. simpl. intros H.
    repeat (destruct H as [H | H]; [discriminate|]). exact H.
Defined.

(** Sortedness helpers. *)
Lemma StronglySorted_snoc {A} (rel : A -> A -> Prop) (l : list A) (x : A) :
  StronglySorted rel l -> Forall (fun y => rel y x) l ->
  StronglySorted rel (l ++ [x]).
Proof.
  induction 1 as [| a l Hs IH Ha]; intros Hx; simpl.
  - repeat constructor.
  - inversion Hx; subst. constructor; [now apply IH|].
    apply Forall_app. split; [exact Ha | now constructor].
Qed.

Lemma StronglySorted_map {A B} (ra : A -> A -> Prop) (rb : B -> B -> Prop)
    (f : A -> B) (l : list A) :
  (forall x y, ra x y -> rb (f x) (f y)) ->
  StronglySorted ra l -> StronglySorted rb (map f l).
Proof.
  intros Hf. induction 1 as [| a l Hs IH Ha]; simpl; constructor; [exact IH|].
  apply Forall_map. eapply Forall_impl; [| exact Ha]. intros y. apply Hf.
Qed.

Lemma nondecreasing_on_seq (f : nat -> R) (start n : nat) :
  (forall i j, (i < j)%nat -> f i <= f j) ->
  StronglySorted Rle (map f (seq start n)).
Proof.
  intros Hf. revert start. induction n as [| n IH]; intros start; simpl.
  - constructor.
  - constructor; [apply IH|].
    apply Forall_forall. intros y Hy.
    apply in_map_iff in Hy. destruct Hy as (j & <- & Hj).
    apply in_seq in Hj. apply Hf. lia.
Qed.

(** [np.linspace] with start <= stop and at least two points runs upwards
    from start to stop. *)
Lemma linspace_nondecreasing (start stop : R) (m : nat) :
  start <= stop ->
  StronglySorted Rle (linspace start stop (S (S m)))
  /\ hd_error (linspace start stop (S (S m))) = Some start
  /\ last_elem (linspace start stop (S (S m))) = Ok stop.
Proof.
  intros H.
  assert (Hm : 0 < INR (S m)) by (apply lt_0_INR; lia).
  assert (Hstep : 0 <= (stop - start) / INR (S m)).
  { unfold Rdiv. apply Rmult_le_pos; [lra | apply Rlt_le, Rinv_0_lt_compat; exact Hm]. }
  change (linspace start stop (S (S m)))
    with (map (fun i => INR i * ((stop - start) / INR (S m)) + start) (seq 0 (S m))
          ++ [stop]).
  split; [| split].
  - apply StronglySorted_snoc.
    + apply nondecreasing_on_seq. intros i j Hij. apply lt_INR in Hij. nra.
    + apply Forall_forall. intros y Hy.
      apply in_map_iff in Hy. destruct Hy as (j & <- & Hj).
      apply in_seq in Hj.
      assert (Hj' : INR j < INR (S m)) by (apply lt_INR; lia).
      replace stop with (INR (S m) * ((stop - start) / INR (S m)) + start) at 2
        by (field; lra).
      nra.
  - simpl. f_equal. lra.
  - apply last_elem_app.
Qed.

(** The series a successful length sweep stores, sample by sample. *)
Lemma sim8_run_length_losses
    (ft : string) (p : Sim8.fiber_params) (l1 l2 r T : R)
    (s : Sim8.gui) (g : rng) :
  Sim8.lookup ft Sim8.fiber_types = Ok p ->
  r <> 0 ->
  let loss := fun L : R =>
    Sim8.attenuation_coeff p * L
    + IZR Sim8.default_turns
      * (Sim8.base_bending_loss p * (Sim8.ideal_bend_radius p / r)
         * (Sim8.bend_angle / 90.0))
    + Sim8.temp_coefficient * Rabs (T - Sim8.room_temperature) * L in
  exists currents lbl g',
    Sim8.run_length_simulation ft (Some l1) (Some l2) (Some T) (Some r) (s, g)
    = (Ok tt,
       (Sim8.mkGui (Some (linspace l1 l2 100, currents,
                          map loss (linspace l1 l2 100)))
                   (Sim8.turns_sim_data s) lbl, g'))
    /\ List.length currents = 100%nat.
Proof.
  intros Hp Hr loss.
  destruct (sim8_sweep_samples
              (fun L => Sim8.simulate_output_current L r T
                          (Sim8.attenuation_coeff p) (Sim8.base_bending_loss p)
                          (Sim8.ideal_bend_radius p) Sim8.default_turns)
              loss (linspace l1 l2 100) g)
    as (samples & g' & Hrun & Hmap & _).
  { intros L g0. eexists.
    rewrite sim8_simulate_output_current_ok by assumption. reflexivity. }
  assert (Hlen : List.length samples = 100%nat).
  { rewrite <- (length_map snd), Hmap, length_map. apply linspace_length. }
  assert (Hne : linspace l1 l2 100 <> []).
  { intros Hnil. apply (f_equal (@List.length R)) in Hnil.
    rewrite linspace_length in Hnil. discriminate. }
  assert (Hs : samples <> []) by (intros ->; discriminate).
  destruct (last_elem_nonempty _ Hne) as [x Hlast_x].
  destruct (last_elem_nonempty _ (map_nonempty fst _ Hs)) as [i Hlast_i].
  destruct (last_elem_nonempty _ (map_nonempty snd _ Hs)) as [l Hlast_l].
  exists (map fst samples), (Sim8.LengthSim x i l), g'.
  split; [| now rewrite length_map].
  unfold Sim8.run_length_simulation.
  unfold bind, lift, on_snd, Sim8.set_length_sim_data, Sim8.set_label, modify.
  rewrite Hp. cbn [fst snd]. rewrite Hrun. cbn [fst snd].
  rewrite Hlast_x, Hlast_i, Hlast_l. rewrite Hmap. reflexivity.
Qed.

(** A length sweep with start <= end (catalogued fibre; bounds and
    temperature of magnitude up to 1e50, bend radius of magnitude between
    1e-50 and 1e50) stores lengths that run upwards from start to end, and
    the stored total losses never decrease along them: every catalogued
    attenuation is positive and the temperature term never decreases with
    length.  Neighbouring samples may be equal. *)
Theorem sim8_length_sweep_monotone
    (ft : string) (p : Sim8.fiber_params) (l1 l2 r T : R)
    (s : Sim8.gui) (g : rng) :
  Sim8.lookup ft Sim8.fiber_types = Ok p ->
  1e-50 <= Rabs r <= 1e50 -> Rabs T <= 1e50 ->
  Rabs l1 <= 1e50 -> Rabs l2 <= 1e50 -> l1 <= l2 ->
  exists lengths currents losses s' g',
    Sim8.run_length_simulation ft (Some l1) (Some l2) (Some T) (Some r) (s, g)
    = (Ok tt, (s', g'))
    /\ Sim8.length_sim_data s' = Some (lengths, currents, losses)
    /\ hd_error lengths = Some l1
    /\ last_elem lengths = Ok l2
    /\ StronglySorted Rle lengths
    /\ StronglySorted Rle losses
    /\ List.length losses = 100%nat.
Proof.
  intros Hp Hr _ _ _ Hl.
  assert (Hr0 : r <> 0).
  { intros ->. rewrite Rabs_R0 in Hr. lra. }
  destruct (sim8_run_length_losses ft p l1 l2 r T s g Hp Hr0)
    as (currents & lbl & g' & Hrun & Hlen).
  destruct (sim8_catalogue_positive ft p Hp) as (Ha & _ & _).
  destruct (linspace_nondecreasing l1 l2 98 Hl) as (Hsorted & Hhd & Hlast).
  eexists _, _, _, _, _. split; [exact Hrun|]. cbn [Sim8.length_sim_data].
  split; [reflexivity|].
  split; [exact Hhd|]. split; [exact Hlast|]. split; [exact Hsorted|].
  split; [| now rewrite length_map, linspace_length].
  apply (StronglySorted_map Rle Rle); [| exact Hsorted].
  intros x y Hxy.
  assert (Ht : 0 <= Sim8.temp_coefficient * Rabs (T - Sim8.room_temperature)).
  { apply Rmult_le_pos; [unfold Sim8.temp_coefficient; lra | apply Rabs_pos]. }
  nra.
Qed.

Lemma sim8_length_sweep_monotone_witness :
  exists lengths currents losses s' g',
    Sim8.run_length_simulation "G.652D" (Some 1) (Some 10) (Some 30) (Some 5)
      (Sim8.mkGui None None Sim8.Initial, mkRng (fun _ => 0) (fun _ => []) 0)
    = (Ok tt, (s', g'))
    /\ Sim8.length_sim_data s' = Some (lengths, currents, losses)
    /\ StronglySorted Rle losses.
Proof.
  destruct (sim8_length_sweep_monotone "G.652D" (Sim8.mkParams 0.20 0.10 5.0)
              1 10 5 30 (Sim8.mkGui None None Sim8.Initial)
              (mkRng (fun _ => 0) (fun _ => []) 0))
    as (lengths & currents & losses & s' & g' & Hrun & Hd & _ & _ & _ & Hs & _).
  - reflexivity.
  - rewrite Rabs_pos_eq; lra.
  - rewrite Rabs_pos_eq; lra.
  - rewrite Rabs_pos_eq; lra.
  - rewrite Rabs_pos_eq; lra.
  - lra.
  - exists lengths, currents, losses, s', g'. auto.
Defined.

(** Saving after a sweep writes exactly the lengths and output currents the
    sweep stored, under a title naming the fibre selected when the button is
    pressed (which need not be the fibre the sweep was run for); the stored
    series stay in place.  Before any length sweep, or when the dialog is
    cancelled, nothing is written. *)
Theorem sim8_save_length_graph_after_sweep
    (ft selected path : string) (p : Sim8.fiber_params) (l1 l2 r T : R)
    (s : Sim8.gui) (g : rng) :
  Sim8.lookup ft Sim8.fiber_types = Ok p ->
  r <> 0 -> path <> ""%string ->
  (exists currents losses lbl g',
      Sim8.run_length_simulation ft (Some l1) (Some l2) (Some T) (Some r) (s, g)
      = (Ok tt,
         (Sim8.mkGui (Some (linspace l1 l2 100, currents, losses))
                     (Sim8.turns_sim_data s) lbl, g'))
      /\ Sim8.save_length_graph selected path
           (Sim8.mkGui (Some (linspace l1 l2 100, currents, losses))
                       (Sim8.turns_sim_data s) lbl, g')
         = (Ok (Some (Sim8.mkFigure path selected (linspace l1 l2 100) currents)),
            (Sim8.mkGui (Some (linspace l1 l2 100, currents, losses))
                        (Sim8.turns_sim_data s)
                        (Sim8.Message ("Length graph saved as: " ++ path)), g'))
      /\ Sim8.save_length_graph selected ""
           (Sim8.mkGui (Some (linspace l1 l2 100, currents, losses))
                       (Sim8.turns_sim_data s) lbl, g')
         = (Ok None,
            (Sim8.mkGui (Some (linspace l1 l2 100, currents, losses))
                        (Sim8.turns_sim_data s) lbl, g')))
  /\ (Sim8.length_sim_data s = None ->
      Sim8.save_length_graph selected path (s, g)
      = (Ok None,
         (Sim8.mkGui None (Sim8.turns_sim_data s)
                     (Sim8.Message "Run Length Simulation first."), g))).
Proof.
  intros Hp Hr Hpath. split.
  - destruct (sim8_run_length_runs ft p l1 l2 r T s g Hp Hr)
      as (samples & lbl & g' & Hrun & _).
    exists (map fst samples), (map snd samples), lbl, g'.
    split; [exact Hrun|].
    unfold Sim8.save_length_graph. cbn [fst snd Sim8.length_sim_data].
    apply String.eqb_neq in Hpath. rewrite Hpath. split; reflexivity.
  - intros Hnone. unfold Sim8.save_length_graph. cbn [fst].
    rewrite Hnone. unfold bind, Sim8.set_label, modify, ret. cbn [fst snd].
    now rewrite Hnone.
Qed.

Lemma sim8_save_length_graph_after_sweep_witness :
  Sim8.save_length_graph "G.655" "out.png"
    (Sim8.mkGui None None Sim8.Initial, mkRng (fun _ => 0) (fun _ => []) 0)
  = (Ok None,
     (Sim8.mkGui None None (Sim8.Message "Run Length Simulation first."),
      mkRng (fun _ => 0) (fun _ => []) 0)).
Proof.
  destruct (sim8_save_length_graph_after_sweep "G.652D" "G.655" "out.png"
              (Sim8.mkParams 0.20 0.10 5.0) 1 10 5 25
              (Sim8.mkGui None None Sim8.Initial)
              (mkRng (fun _ => 0) (fun _ => []) 0)) as [_ H].
  - reflexivity.
  - lra.
  - discriminate.
  - apply H. reflexivity.
Defined.

(** ** sim4.py: counts, event indices and the event-free trace *)

(** Without event indices the loop draws nothing and the running total after
    k+1 steps is k+1 times the per-step loss above where it started. *)
Lemma sim4_steps_no_events
    (dz Ta Tr a tc : R) (todo : list Z) (total : R) (profile : list R) (g : rng) :
  let delta := a * dz + tc * Rabs (Ta - Tr) * dz in
  Sim4.steps dz Ta Tr a tc [] todo total profile g
  = (Ok (total + INR (List.length todo) * delta,
         profile ++ map (fun k => total + INR (S k) * delta)
                        (seq 0 (List.length todo))), g).
Proof.
  intros delta. revert total profile.
  induction todo as [| step rest IH]; intros total profile.
  - simpl. unfold ret. rewrite app_nil_r. do 3 f_equal. lra.
  - cbn [Sim4.steps contains existsb]. unfold bind at 1. unfold ret at 1.
    fold delta. rewrite IH. rewrite <- app_assoc.
    cbn [List.length seq map app].
    rewrite <- seq_shift, map_map.
    assert (E1 : total + delta + INR (List.length rest) * delta
                 = total + INR (S (List.length rest)) * delta)
      by (rewrite S_INR; lra).
    assert (E2 : total + INR 1 * delta = total + delta) by (simpl; lra).
    assert (E3 : map (fun k => total + delta + INR (S k) * delta)
                     (seq 0 (List.length rest))
                 = map (fun x => total + INR (S (S x)) * delta)
                       (seq 0 (List.length rest))).
    { apply map_ext. intros k. rewrite !S_INR. lra. }
    rewrite E1, E2, E3. reflexivity.
Qed.

(** With no bend event requested, non-negative length and coefficients and
    a positive input current and noise level (magnitudes up to 1e100, at
    most 2^31 steps) the trace is the deterministic accumulation:
    entry k is (k+1) times the per-step attenuation-plus-temperature loss,
    whatever the generator holds; the last entry is the loss of the whole
    length, and the only draws are the (unused) permutation and the output
    noise. *)
Theorem sim4_no_events_trace
    (I_in L : R) (num_steps : Z) (Ta Tr a tc sigma : R) (g : rng) :
  (0 < num_steps < 2 ^ 31)%Z ->
  0 < I_in <= 1e100 -> 0 < sigma <= 1e100 ->
  0 <= L <= 1e100 -> 0 <= a <= 1e100 -> 0 <= tc <= 1e100 ->
  Rabs Ta <= 1e100 -> Rabs Tr <= 1e100 ->
  let dz := L / IZR num_steps in
  let delta := a * dz + tc * Rabs (Ta - Tr) * dz in
  exists i_out g',
    Sim4.hybrid_simulation I_in L num_steps 0 Ta Tr a tc sigma g
    = (Ok (i_out,
           map (fun k => 0 + INR (S k) * delta) (seq 0 (Z.to_nat num_steps)),
           []), g')
    /\ last_elem (map (fun k => 0 + INR (S k) * delta) (seq 0 (Z.to_nat num_steps)))
       = Ok (0 + INR (Z.to_nat num_steps) * delta)
    /\ 0 + INR (Z.to_nat num_steps) * delta = a * L + tc * Rabs (Ta - Tr) * L
    /\ pos g' = (pos g + 2)%nat.
Proof.
  intros Hn HI Hs HL Ha Htc _ _ dz delta.
  assert (Hn0 : IZR num_steps <> 0) by (apply not_0_IZR; lia).
  assert (Hlen : List.length (arange 0 num_steps) = Z.to_nat num_steps).
  { rewrite arange_length. f_equal. lia. }
  assert (Htotal : 0 + INR (Z.to_nat num_steps) * delta
                   = a * L + tc * Rabs (Ta - Tr) * L).
  { rewrite INR_IZR_INZ, Z2Nat.id by lia.
    unfold delta, dz. field. exact Hn0. }
  assert (Hpos : 0 <= a * L + tc * Rabs (Ta - Tr) * L).
  { assert (0 <= tc * Rabs (Ta - Tr))
      by (apply Rmult_le_pos; [apply Htc | apply Rabs_pos]).
    assert (0 <= a * L) by (apply Rmult_le_pos; lra).
    assert (0 <= tc * Rabs (Ta - Tr) * L) by (apply Rmult_le_pos; lra).
    lra. }
  unfold Sim4.hybrid_simulation.
  unfold bind at 1. unfold lift at 1. rewrite (div_nonzero _ _ Hn0). fold dz.
  unfold bind at 1. unfold choice. rewrite Hlen.
  assert (E1 : (Z.of_nat (Z.to_nat num_steps) <? 0)%Z = false)
    by (apply Z.ltb_ge; lia).
  rewrite E1. cbn [Z.ltb Z.compare]. unfold bind at 1, permutation, ret at 1.
  cbn [Z.to_nat firstn sort fold_right].
  unfold bind at 1. rewrite sim4_steps_no_events. fold delta. rewrite Hlen.
  cbn [app]. unfold bind at 1. unfold lift.
  rewrite float_pow10_in_range by (rewrite Htotal; lra).
  unfold bind at 1.
  rewrite normal_product_ok
    by first [lra | apply Rmult_le_pos; [lra | apply Rlt_le, pow10_pos]].
  unfold ret. eexists _, _. split; [reflexivity|].
  split; [| split].
  - destruct (Z.to_nat num_steps) as [| m] eqn:Em; [lia|].
    rewrite seq_S, map_app. apply last_elem_app.
  - exact Htotal.
  - simpl. lia.
Qed.

Lemma sim4_no_events_trace_witness :
  exists i_out g',
    Sim4.hybrid_simulation 1000 5 3 0 30 25 0.00385 0.0002 0.02
      (mkRng (fun _ => -9) (fun _ => [2; 1; 0]%Z) 0)
    = (Ok (i_out,
           map (fun k => 0 + INR (S k)
                             * (0.00385 * (5 / IZR 3)
                                + 0.0002 * Rabs (30 - 25) * (5 / IZR 3)))
               (seq 0 (Z.to_nat 3)),
           []), g').
Proof.
  destruct (sim4_no_events_trace 1000 5 3 30 25 0.00385 0.0002 0.02
              (mkRng (fun _ => -9) (fun _ => [2; 1; 0]%Z) 0))
    as (i & g' & Hrun & _); try lia; try lra;
    try (rewrite Rabs_pos_eq; lra).
  exists i, g'. exact Hrun.
Defined.

(** A step count of 0 fails with ZeroDivisionError; otherwise a negative
    event count, or more events than there are steps, fails with ValueError
    in the index selection.  Either way nothing is drawn and no trace is
    produced. *)
Theorem sim4_rejects_bad_counts
    (I_in L : R) (num_steps num_bend_events : Z) (Ta Tr a tc sigma : R) (g : rng) :
  (num_steps = 0%Z ->
   Sim4.hybrid_simulation I_in L num_steps num_bend_events Ta Tr a tc sigma g
   = (Raise ZeroDivisionError, g))
  /\ (num_steps <> 0%Z ->
      (num_bend_events < 0 \/ Z.max 0 num_steps < num_bend_events)%Z ->
      Sim4.hybrid_simulation I_in L num_steps num_bend_events Ta Tr a tc sigma g
      = (Raise ValueError, g)).
Proof.
  split.
  - intros ->. unfold Sim4.hybrid_simulation, bind, lift. now rewrite div_zero.
  - intros Hn Hk.
    assert (Hn0 : IZR num_steps <> 0) by (apply not_0_IZR; exact Hn).
    unfold Sim4.hybrid_simulation.
    unfold bind at 1. unfold lift. rewrite (div_nonzero _ _ Hn0).
    unfold bind at 1. unfold choice. rewrite arange_length.
    destruct (Z.of_nat (Z.to_nat (num_steps - 0)) <? num_bend_events)%Z eqn:E1;
      [reflexivity|].
    destruct (num_bend_events <? 0)%Z eqn:E2; [reflexivity|].
    apply Z.ltb_ge in E1, E2. lia.
Qed.

Lemma sim4_rejects_bad_counts_witness :
  Sim4.hybrid_simulation 1000 5 0 3 30 25 0.00385 0.0002 0.02
    (mkRng (fun _ => 0) (fun _ => []) 0)
  = (Raise ZeroDivisionError, mkRng (fun _ => 0) (fun _ => []) 0)
  /\ Sim4.hybrid_simulation 1000 5 4 5 30 25 0.00385 0.0002 0.02
       (mkRng (fun _ => 0) (fun _ => []) 0)
     = (Raise ValueError, mkRng (fun _ => 0) (fun _ => []) 0).
Proof.
  split.
  - apply (sim4_rejects_bad_counts 1000 5 0 3 30 25 0.00385 0.0002 0.02). reflexivity.
  - apply (sim4_rejects_bad_counts 1000 5 4 5 30 25 0.00385 0.0002 0.02); lia.
Defined.

(** When the generator hands out a permutation of the step indices, as
    NumPy's does, a run with 0 <= k <= n events, non-negative length and
    coefficients, a positive input current and noise level (magnitudes up to
    1e100, at most 2^31 steps) and non-negative event draws completes and returns exactly k event indices, in strictly
    ascending order (so without repetition) and all within 0 .. n-1,
    together with a trace of n entries. *)
Theorem sim4_event_indices
    (I_in L : R) (num_steps num_bend_events : Z) (Ta Tr a tc sigma : R) (g : rng) :
  (0 < num_steps < 2 ^ 31)%Z ->
  (0 <= num_bend_events <= num_steps)%Z ->
  0 < I_in <= 1e100 -> 0 < sigma <= 1e100 ->
  0 <= L <= 1e100 -> 0 <= a <= 1e100 -> 0 <= tc <= 1e100 ->
  Rabs Ta <= 1e100 -> Rabs Tr <= 1e100 ->
  (forall j, (j < Z.to_nat num_bend_events)%nat ->
             0 <= 0.2 + 0.05 * gauss g (S (pos g) + j)) ->
  Permutation (perms g (pos g)) (arange 0 num_steps) ->
  exists i_out loss_profile events g',
    Sim4.hybrid_simulation I_in L num_steps num_bend_events Ta Tr a tc sigma g
    = (Ok (i_out, loss_profile, events), g')
    /\ List.length events = Z.to_nat num_bend_events
    /\ StronglySorted Z.lt events
    /\ Forall (fun i => (0 <= i < num_steps)%Z) events
    /\ (forall i, In i events -> In i (perms g (pos g)))
    /\ List.length loss_profile = Z.to_nat num_steps.
Proof.
  intros Hn Hk HI Hsig HL Ha Htc _ _ Hdraws Hperm.
  assert (Hn0 : IZR num_steps <> 0) by (apply not_0_IZR; lia).
  assert (Hlen : List.length (arange 0 num_steps) = Z.to_nat num_steps).
  { rewrite arange_length. f_equal. lia. }
  assert (Hdz : 0 <= L / IZR num_steps).
  { apply Rmult_le_pos; [apply HL|].
    apply Rlt_le, Rinv_0_lt_compat, (IZR_lt 0). lia. }
  assert (Hdelta : 0 <= a * (L / IZR num_steps)
                        + tc * Rabs (Ta - Tr) * (L / IZR num_steps)).
  { assert (0 <= tc * Rabs (Ta - Tr))
      by (apply Rmult_le_pos; [apply Htc | apply Rabs_pos]).
    assert (0 <= a * (L / IZR num_steps))
      by (apply Rmult_le_pos; [apply Ha | assumption]).
    assert (0 <= tc * Rabs (Ta - Tr) * (L / IZR num_steps))
      by (apply Rmult_le_pos; assumption).
    lra. }
  unfold Sim4.hybrid_simulation.
  unfold bind at 1. unfold lift at 1. rewrite (div_nonzero _ _ Hn0).
  unfold bind at 1. unfold choice. rewrite Hlen.
  assert (E1 : (Z.of_nat (Z.to_nat num_steps) <? num_bend_events)%Z = false)
    by (apply Z.ltb_ge; lia).
  assert (E2 : (num_bend_events <? 0)%Z = false) by (apply Z.ltb_ge; lia).
  rewrite E1, E2. unfold bind at 1, permutation, ret at 1.
  set (chosen := firstn (Z.to_nat num_bend_events) (perms g (pos g))).
  assert (Hidx : (List.length (sort chosen) <= Z.to_nat num_bend_events)%nat).
  { rewrite (Permutation_length (sort_permutation _)).
    apply firstn_le_length. }
  destruct (sim4_steps_nondecreasing (L / IZR num_steps) Ta Tr a tc (sort chosen)
              (arange 0 num_steps) 0 [] (advance g) Hdelta)
    as (total & added & g1 & Hrun & Hadded & _ & Htot & _).
  { intros j Hj. simpl. apply Hdraws.
    pose proof (sim4_event_steps_bounded (sort chosen) 0 num_steps). lia. }
  unfold bind at 1. rewrite Hrun. cbn [app]. unfold bind at 1. unfold lift.
  rewrite float_pow10_in_range by lra.
  unfold bind at 1.
  rewrite normal_product_ok
    by first [lra | apply Rmult_le_pos; [lra | apply Rlt_le, pow10_pos]].
  unfold ret. eexists _, _, _, _. split; [reflexivity|].
  assert (Hplen : List.length (perms g (pos g)) = Z.to_nat num_steps).
  { rewrite (Permutation_length Hperm). exact Hlen. }
  assert (Hin : forall i, In i (sort chosen) -> In i (perms g (pos g))).
  { intros i Hi. apply (Permutation_in _ (sort_permutation chosen)) in Hi.
    unfold chosen in Hi.
    rewrite <- (firstn_skipn (Z.to_nat num_bend_events) (perms g (pos g))).
    apply in_or_app. now left. }
  split; [| split; [| split; [| split]]].
  - rewrite (Permutation_length (sort_permutation chosen)).
    unfold chosen. rewrite length_firstn, Hplen. lia.
  - apply sorted_nodup_strict; [apply sort_sorted|].
    apply (Permutation_NoDup (Permutation_sym (sort_permutation chosen))).
    assert (Hnd : NoDup (perms g (pos g))).
    { apply (Permutation_NoDup (Permutation_sym Hperm)). apply arange_nodup. }
    rewrite <- (firstn_skipn (Z.to_nat num_bend_events) (perms g (pos g))) in Hnd.
    apply NoDup_app_remove_r in Hnd. exact Hnd.
  - apply Forall_forall. intros i Hi. apply Hin in Hi.
    apply (Permutation_in _ Hperm) in Hi. apply arange_in in Hi. lia.
  - exact Hin.
  - rewrite Hadded. exact Hlen.
Qed.

Lemma sim4_event_indices_witness :
  exists i_out loss_profile events g',
    Sim4.hybrid_simulation 1000 5 4 2 30 25 0.00385 0.0002 0.02
      (mkRng (fun k => match k with 1%nat | 2%nat => 1 | _ => -7 end)
             (fun _ => [2; 0; 3; 1]%Z) 0)
    = (Ok (i_out, loss_profile, events), g')
    /\ List.length events = 2%nat
    /\ StronglySorted Z.lt events.
Proof.
  destruct (sim4_event_indices 1000 5 4 2 30 25 0.00385 0.0002 0.02
              (mkRng (fun k => match k with 1%nat | 2%nat => 1 | _ => -7 end)
                     (fun _ => [2; 0; 3; 1]%Z) 0))
    as (i & prof & ev & g' & Hrun & Hlen & Hs & _); try lia; try lra;
    try (rewrite Rabs_pos_eq; lra).
  - intros j Hj. simpl in Hj. simpl.
    destruct j as [| [| j]]; [lra | lra | lia].
  - simpl. unfold arange. simpl.
    apply Permutation_sym.
    apply (Permutation_cons_app [2%Z] [3%Z; 1%Z] 0%Z).
    apply (Permutation_cons_app [2%Z; 3%Z] [] 1%Z).
    apply Permutation_refl.
  - exists i, prof, ev, g'. auto.
Defined.

(** ** sim3.py: output currents of the rays *)

Lemma pow10_increasing (x y : R) : x < y -> pow10 x < pow10 y.
Proof.
  intros H. unfold pow10, Rpower. apply exp_increasing.
  assert (Hln : 0 < ln 10).
  { rewrite <- ln_1. apply ln_increasing; lra. }
  nra.
Qed.

Lemma pow10_0 : pow10 0 = 1.
Proof. unfold pow10, Rpower. rewrite Rmult_0_l. apply exp_0. Qed.

(** One ray: five draws, a loss within 10 dB above the fixed term and the
    output current computed from that loss. *)
Lemma sim3_simulate_ray_spec (g : rng) :
  exists total g',
    Sim3.simulate_ray g = (Ok (Sim3.I_in * pow10 (- total / 10), total), g')
    /\ 0 < total
    /\ 0 < Sim3.I_in * pow10 (- total / 10) < Sim3.I_in
    /\ gauss g' = gauss g /\ perms g' = perms g
    /\ pos g' = (pos g + 5)%nat.
Proof.
  destruct (sim3_sum_bends_spec Sim3.number_of_bends 0 g)
    as (bends & g' & Hrun & Hb & Hg & Hp & Hpos).
  unfold Sim3.simulate_ray, bind. rewrite Hrun. unfold ret.
  eexists _, g'. split; [reflexivity|].
  assert (Habs : Rabs (Sim3.ambient_temp - Sim3.room_temp) = 5).
  { unfold Sim3.ambient_temp, Sim3.room_temp.
    replace (30.0 - 25.0) with 5 by lra. apply Rabs_pos_eq. lra. }
  rewrite Habs.
  unfold Sim3.attenuation_coeff, Sim3.fiber_length, Sim3.temp_coefficient, Sim3.I_in.
  assert (Htot : 0 < 0.00385 * 5.0 + bends + 0.0002 * 5 * 5.0) by lra.
  split; [exact Htot|]. split; [| auto].
  set (total := 0.00385 * 5.0 + bends + 0.0002 * 5 * 5.0) in *.
  pose proof (pow10_pos (- total / 10)) as Hpos10.
  assert (Hlt : pow10 (- total / 10) < 1).
  { rewrite <- pow10_0. apply pow10_increasing. lra. }
  lra.
Qed.

Lemma sim3_rays_spec (n : nat) (outs losses : list R) (g : rng) :
  exists new_outs new_losses g',
    Sim3.rays n outs losses g = (Ok (outs ++ new_outs, losses ++ new_losses), g')
    /\ List.length new_outs = n /\ List.length new_losses = n
    /\ Forall (fun i => 0 < i < Sim3.I_in) new_outs
    /\ Forall2 (fun i l => i = Sim3.I_in * pow10 (- l / 10)) new_outs new_losses
    /\ gauss g' = gauss g /\ perms g' = perms g
    /\ pos g' = (pos g + 5 * n)%nat.
Proof.
  revert outs losses g. induction n as [| n IH]; intros outs losses g.
  - exists [], [], g. simpl. rewrite !app_nil_r. unfold ret.
    repeat split; auto; lia.
  - destruct (sim3_simulate_ray_spec g)
      as (total & g1 & Hray & _ & Hi & Hg1 & Hp1 & Hpos1).
    destruct (IH (outs ++ [Sim3.I_in * pow10 (- total / 10)]) (losses ++ [total]) g1)
      as (no & nl & g' & Hrun & Hlo & Hll & Hall & Hrel & Hg & Hp & Hpos).
    exists (Sim3.I_in * pow10 (- total / 10) :: no), (total :: nl), g'.
    cbn [Sim3.rays]. unfold bind at 1. rewrite Hray. rewrite Hrun.
    rewrite <- !app_assoc. simpl.
    repeat split; auto; try congruence; try lia; apply Hi.
Qed.

Lemma mean_between (lo hi : R) (l : list R) :
  l <> [] -> Forall (fun x => lo < x < hi) l ->
  lo < Sim3.mean l < hi.
Proof.
  intros Hne Hall. unfold Sim3.mean.
  assert (Hsum : INR (List.length l) * lo < fold_right Rplus 0 l
                 < INR (List.length l) * hi).
  { induction l as [| x t IH]; [congruence|].
    inversion Hall as [| x' t' Hx Ht]; subst.
    destruct t as [| y t].
    - simpl. lra.
    - assert (Hy : y :: t <> []) by discriminate.
      specialize (IH Hy Ht).
      change (List.length (x :: y :: t)) with (S (List.length (y :: t))).
      rewrite S_INR. cbn [fold_right]. cbn [fold_right] in IH. lra. }
  assert (Hn : 0 < INR (List.length l)).
  { apply lt_0_INR. destruct l; [congruence | simpl; lia]. }
  split.
  - apply Rmult_lt_reg_r with (INR (List.length l)); [exact Hn|].
    unfold Rdiv. rewrite Rmult_assoc, Rinv_l, Rmult_1_r by lra. lra.
  - apply Rmult_lt_reg_r with (INR (List.length l)); [exact Hn|].
    unfold Rdiv. rewrite Rmult_assoc, Rinv_l, Rmult_1_r by lra. lra.
Qed.

(** The Monte Carlo script over n rays never fails; it records n output
    currents and n losses, each current being I_in * 10^(-loss/10) for the
    loss beside it and lying strictly between 0 and the input current, and it
    takes 5 n deviates from the generator.  With at least one ray the
    average output current also lies strictly between 0 and I_in. *)
Theorem sim3_monte_carlo_outputs (n : nat) (g : rng) :
  exists ray_outputs ray_losses avg_I_out g',
    Sim3.monte_carlo n g = (Ok (ray_outputs, ray_losses, avg_I_out), g')
    /\ List.length ray_outputs = n
    /\ List.length ray_losses = n
    /\ Forall (fun i => 0 < i < Sim3.I_in) ray_outputs
    /\ Forall2 (fun i l => i = Sim3.I_in * pow10 (- l / 10)) ray_outputs ray_losses
    /\ pos g' = (pos g + 5 * n)%nat
    /\ (n <> 0%nat -> 0 < avg_I_out < Sim3.I_in).
Proof.
  destruct (sim3_rays_spec n [] [] g)
    as (outs & losses & g' & Hrun & Hlo & Hll & Hall & Hrel & _ & _ & Hpos).
  unfold Sim3.monte_carlo, bind. rewrite Hrun. cbn [app]. unfold ret.
  eexists _, _, _, _. split; [reflexivity|].
  repeat split; auto.
  - apply (mean_between 0 Sim3.I_in outs); [| exact Hall].
    intros ->. simpl in Hlo. congruence.
  - apply (mean_between 0 Sim3.I_in outs); [| exact Hall].
    intros ->. simpl in Hlo. congruence.
Qed.

Lemma sim3_monte_carlo_outputs_witness :
  exists ray_outputs ray_losses avg_I_out g',
    Sim3.monte_carlo 3 (mkRng (fun _ => -20) (fun _ => []) 0)
    = (Ok (ray_outputs, ray_losses, avg_I_out), g')
    /\ List.length ray_outputs = 3%nat
    /\ 0 < avg_I_out < Sim3.I_in.
Proof.
  destruct (sim3_monte_carlo_outputs 3 (mkRng (fun _ => -20) (fun _ => []) 0))
    as (o & l & avg & g' & Hrun & Hlo & _ & _ & _ & _ & Havg).
  exists o, l, avg, g'. split; [exact Hrun|]. split; [exact Hlo|].
  apply Havg. discriminate.
Defined.

(** ** sim11.py: the noise is applied to the loss itself *)

(** In sim11.py the returned loss is total * (1 + 0.02 z).  For a positive
    attenuation and non-negative bending parameters (magnitudes between
    1e-50 and 1e50): with a positive length and 0 to 2^31 turns the
    deterministic total is positive, the call succeeds, and the result lies
    above the total for a deviate z >= 0 and below it for z <= 0; with a
    negative length and no turn (or a negative count) the total is negative
    and [np.random.normal] refuses its scale with ValueError, before any
    draw. *)
Theorem sim11_loss_carries_noise
    (L r T a b i : R) (n : Z) (g : rng) :
  1e-50 <= r <= 1e50 -> 1e-50 <= a <= 1e50 ->
  0 <= b <= 1e50 -> 0 <= i <= 1e50 ->
  Rabs T <= 1e50 -> 1e-50 <= Rabs L <= 1e50 ->
  let total := a * L + IZR n * (b * (i / r) * (Sim11.bend_angle / 90.0))
               + Sim11.temp_coefficient * Rabs (T - Sim11.room_temperature) * L in
  let z := gauss g (pos g) in
  (0 < L -> (0 <= n <= 2 ^ 31)%Z ->
   0 < total
   /\ Sim11.simulate_total_loss L r T a b i n g
      = (Ok (total + (0 + Sim11.noise_std * total * z)), advance g)
   /\ (0 <= z -> total <= total + (0 + Sim11.noise_std * total * z))
   /\ (z <= 0 -> total + (0 + Sim11.noise_std * total * z) <= total))
  /\ (L < 0 -> (- 2 ^ 31 <= n <= 0)%Z ->
      Sim11.simulate_total_loss L r T a b i n g = (Raise ValueError, g)).
Proof.
  intros Hr Ha Hb Hi _ _ total z.
  assert (Hrun : forall g0,
             Sim11.simulate_total_loss L r T a b i n g0
             = bind (normal 0 (Sim11.noise_std * total))
                    (fun noise => ret (total + noise)) g0).
  { intros g0. unfold Sim11.simulate_total_loss, Sim11.bending_loss.
    unfold bind at 1. unfold lift. rewrite div_nonzero by lra. reflexivity. }
  assert (Hpb : 0 <= b * (i / r) * (Sim11.bend_angle / 90.0)).
  { unfold Sim11.bend_angle.
    assert (0 <= i / r).
    { apply Rmult_le_pos; [lra | apply Rlt_le, Rinv_0_lt_compat; lra]. }
    assert (0 <= b * (i / r)) by (apply Rmult_le_pos; lra).
    apply Rmult_le_pos; lra. }
  assert (Ht : 0 <= Sim11.temp_coefficient * Rabs (T - Sim11.room_temperature)).
  { apply Rmult_le_pos; [unfold Sim11.temp_coefficient; lra | apply Rabs_pos]. }
  split.
  - intros HL Hn.
    assert (H0 : 0 <= IZR n) by (apply IZR_le; lia).
    assert (0 <= IZR n * (b * (i / r) * (Sim11.bend_angle / 90.0)))
      by (apply Rmult_le_pos; assumption).
    assert (0 <= Sim11.temp_coefficient * Rabs (T - Sim11.room_temperature) * L)
      by (apply Rmult_le_pos; lra).
    assert (0 < a * L) by (apply Rmult_lt_0_compat; lra).
    assert (Htot : 0 < total) by (unfold total; lra).
    split; [exact Htot|]. split.
    + rewrite Hrun. unfold bind.
      rewrite normal_ok by (unfold Sim11.noise_std; lra). reflexivity.
    + unfold Sim11.noise_std. split; intros Hz; nra.
  - intros HL Hn.
    assert (H0 : IZR n <= 0) by (apply IZR_le; lia).
    assert (IZR n * (b * (i / r) * (Sim11.bend_angle / 90.0)) <= 0) by nra.
    assert (Sim11.temp_coefficient * Rabs (T - Sim11.room_temperature) * L <= 0)
      by nra.
    assert (a * L < 0) by nra.
    assert (Htot : total < 0) by (unfold total; lra).
    rewrite Hrun. unfold bind.
    rewrite normal_refused by (unfold Sim11.noise_std; lra). reflexivity.
Qed.

Lemma sim11_loss_carries_noise_witness :
  Sim11.simulate_total_loss (-1) 5 25 0.20 0.10 5.0 0
    (mkRng (fun _ => 1) (fun _ => []) 0)
  = (Raise ValueError, mkRng (fun _ => 1) (fun _ => []) 0).
Proof.
  apply (sim11_loss_carries_noise (-1) 5 25 0.20 0.10 5.0 0
           (mkRng (fun _ => 1) (fun _ => []) 0)); try lra; try lia.
  - rewrite Rabs_pos_eq; lra.
  - rewrite Rabs_left; lra.
Defined.

(** ** sim13.py: the catalogue and the loss law *)

(** For every catalogued fibre and every bend radius between 0 and 1e50 cm
    the loss per bend is a real number, not negative and at most the
    prefactor (pi a n1/lambda)^2/2 reached at radius 0 (it is exactly 0 once
    the exponential underflows); with a length between 1e-50 and 1e50 km and
    0 to 2^31 turns [simulate_total_loss] completes with attenuation *
    length + turns * loss-per-bend, a loss of at least attenuation * length:
    the complex branch cannot occur with the built-in catalogue. *)
Theorem sim13_catalogue_loss_is_real
    (name : string) (p : Sim13.fiber_params) (L Rcm T : R) (n : Z) (g : rng) :
  Sim13.lookup name Sim13.fiber_types = Ok p ->
  0 <= Rcm <= 1e50 -> 1e-50 <= L <= 1e50 -> Rabs T <= 1e50 ->
  (0 <= n <= 2 ^ 31)%Z ->
  exists per_bend total,
    Sim13.bending_loss (Sim13.core_radius p) (Sim13.n1 p) (Sim13.n2 p)
      (Sim13.wavelength p) Rcm
    = Ok (Sim13.VFloat per_bend)
    /\ 0 <= per_bend
       <= 0.5 * (PI * Sim13.core_radius p * Sim13.n1 p / Sim13.wavelength p) ^ 2
    /\ Sim13.simulate_total_loss L Rcm T (Sim13.attenuation_coeff p)
         (Sim13.core_radius p) (Sim13.n1 p) (Sim13.n2 p) (Sim13.wavelength p) n g
       = (Ok (Sim13.VFloat total), advance g)
    /\ total = Sim13.attenuation_coeff p * L + IZR n * per_bend
    /\ Sim13.attenuation_coeff p * L <= total.
Proof.
  intros Hp HR HL _ Hn.
  destruct (sim13_catalogue_per_bend name p Rcm Hp (proj1 HR))
    as (per_bend & Hrun & Hb).
  destruct (sim13_catalogue_guided name p Hp) as (Hatt & _).
  assert (H0 : 0 <= IZR n) by (apply IZR_le; lia).
  assert (Hnb : 0 <= IZR n * per_bend) by (apply Rmult_le_pos; lra).
  assert (Hal : 0 < Sim13.attenuation_coeff p * L)
    by (apply Rmult_lt_0_compat; lra).
  exists per_bend, (Sim13.attenuation_coeff p * L + IZR n * per_bend).
  split; [exact Hrun|]. split; [exact Hb|]. split; [| split; [reflexivity | lra]].
  rewrite (sim13_simulate_total_loss_real L Rcm T _ _ _ _ _ per_bend n g Hrun)
    by lra.
  do 3 f_equal. unfold Sim13.temp_coefficient. lra.
Qed.

Lemma sim13_catalogue_loss_is_real_witness :
  exists per_bend,
    Sim13.bending_loss 0.000025 1.48 1.46 0.00000085 3 = Ok (Sim13.VFloat per_bend)
    /\ 0 <= per_bend <= 0.5 * (PI * 0.000025 * 1.48 / 0.00000085) ^ 2.
Proof.
  destruct (sim13_catalogue_loss_is_real "OM3"
              (Sim13.mkParams 3.5 0.000025 1.48 1.46 0.00000085) 10 3 25 5
              (mkRng (fun _ => 0) (fun _ => []) 0))
    as (l & total & Hrun & Hb & _).
  - reflexivity.
  - lra.
  - lra.
  - rewrite Rabs_pos_eq; lra.
  - lia.
  - exists l. split; [exact Hrun | exact Hb].
Defined.

(** The outcome of the noise step does not depend on the generator. *)
Lemma sim13_add_noise_outcome (v : Sim13.pyval) (g1 g2 : rng) :
  fst (Sim13.add_noise v g1) = fst (Sim13.add_noise v g2).
Proof.
  destruct v as [x | re im];
    unfold Sim13.add_noise, bind, normal_product, normal_signed, Sim13.noise_std.
  - destruct (xorb (negative 0.00) (negative x)); [reflexivity|].
    unfold ret, Sim13.shift_r. cbn [fst]. do 2 f_equal. nra.
  - destruct (andb (negative re) (negb (negative im))); [reflexivity|].
    unfold ret, Sim13.shift_r. cbn [fst]. do 2 f_equal. nra.
Qed.

(** In sim13.py the temperature coefficient and the noise level are both 0:
    for fibre parameters with n1^2 >= n2^2 the outcome of
    [simulate_total_loss] (the loss, or the exception raised on the way) is
    the same at any two ambient temperatures and for any two states of the
    generator. *)
Theorem sim13_temperature_and_noise_ignored
    (L Rcm T1 T2 att a n1 n2 lam : R) (n : Z) (g1 g2 : rng) :
  n2 ^ 2 <= n1 ^ 2 ->
  fst (Sim13.simulate_total_loss L Rcm T1 att a n1 n2 lam n g1)
  = fst (Sim13.simulate_total_loss L Rcm T2 att a n1 n2 lam n g2).
Proof.
  intros _.
  unfold Sim13.simulate_total_loss, bind, lift.
  destruct (Sim13.bending_loss a n1 n2 lam Rcm) as [v | e]; [| reflexivity].
  replace (Sim13.temp_coefficient * Rabs (T1 - Sim13.room_temperature) * L)
    with 0 by (unfold Sim13.temp_coefficient; lra).
  replace (Sim13.temp_coefficient * Rabs (T2 - Sim13.room_temperature) * L)
    with 0 by (unfold Sim13.temp_coefficient; lra).
  apply sim13_add_noise_outcome.
Qed.

Lemma sim13_temperature_and_noise_ignored_witness :
  fst (Sim13.simulate_total_loss 10 5 (-40) 3.5 0.000025 1.48 1.46 0.00000085 5
         (mkRng (fun _ => 2) (fun _ => []) 0))
  = fst (Sim13.simulate_total_loss 10 5 85 3.5 0.000025 1.48 1.46 0.00000085 5
           (mkRng (fun _ => -3) (fun _ => []) 7)).
Proof.
  apply sim13_temperature_and_noise_ignored. lra.
Defined.

(** ** sim12.py: the model selector *)





(** ** sim2.py: the noise level passed by the caller *)

(** For a length of 0 to 1000 km, a temperature within 1000 degrees of zero
    and a bend radius between 0.01 and 1e50 cm the loss lies between 0 and
    1300 dB and the noise-free output current I_in * 10^(-loss/10) is
    positive and at most I_in, so the sign of the [noise_std] argument
    decides: a negative level is refused with ValueError before anything is
    drawn, and a positive level adds noise_std * I_out * z to the noise-free
    current.  A zero bend radius is a ZeroDivisionError whatever the
    level. *)
Theorem sim2_noise_level_edges (L r T sigma : R) (g : rng) :
  0 <= L <= 1000 -> -1000 <= T <= 1000 -> -1e50 <= sigma <= 1e50 ->
  let total := Sim2.attenuation_coeff * L
               + IZR Sim2.number_of_bends
                 * (Sim2.base_bending_loss * (Sim2.ideal_bend_radius / r)
                    * (Sim2.bend_angle / 90.0))
               + Sim2.temp_coefficient * Rabs (T - Sim2.room_temperature) * L in
  let I_out := Sim2.I_in * pow10 (- total / 10) in
  (r = 0 ->
   Sim2.simulate_output_current L r T sigma g = (Raise ZeroDivisionError, g))
  /\ (0.01 <= r <= 1e50 ->
      0 <= total <= 1300
      /\ 0 < I_out <= Sim2.I_in
      /\ (sigma < 0 ->
          Sim2.simulate_output_current L r T sigma g = (Raise ValueError, g))
      /\ (0 < sigma ->
          Sim2.simulate_output_current L r T sigma g
          = (Ok (I_out + (0 + sigma * I_out * gauss g (pos g)), total),
             advance g))).
Proof.
  intros HL HT _ total I_out. split.
  - intros ->. unfold Sim2.simulate_output_current, Sim2.bending_loss, bind, lift.
    now rewrite div_zero.
  - intros Hr.
    assert (Hq : 0 <= Sim2.ideal_bend_radius / r <= 1000).
    { unfold Sim2.ideal_bend_radius, Rdiv.
      assert (Hi : 0 < / r) by (apply Rinv_0_lt_compat; lra).
      assert (He : r * / r = 1) by (field; lra).
      split; nra. }
    assert (Habs : 0 <= Rabs (T - Sim2.room_temperature) <= 1025).
    { split; [apply Rabs_pos|]. unfold Sim2.room_temperature.
      apply Rabs_le. lra. }
    assert (Htemp : 0 <= Sim2.temp_coefficient * Rabs (T - Sim2.room_temperature) * L
                    <= 205).
    { unfold Sim2.temp_coefficient. split; nra. }
    assert (Htot : 0 <= total <= 1300).
    { unfold total, Sim2.attenuation_coeff, Sim2.number_of_bends,
        Sim2.base_bending_loss, Sim2.bend_angle.
      split; lra. }
    assert (HI : 0 < I_out <= Sim2.I_in).
    { unfold I_out, Sim2.I_in. pose proof (pow10_pos (- total / 10)).
      assert (pow10 (- total / 10) <= pow10 0) by (apply pow10_le; lra).
      rewrite pow10_0 in *. lra. }
    assert (Hrun : Sim2.simulate_output_current L r T sigma g
                   = bind (normal 0 (sigma * I_out))
                          (fun noise => ret (I_out + noise, total)) g).
    { unfold Sim2.simulate_output_current, Sim2.bending_loss.
      unfold bind at 1. unfold lift. rewrite div_nonzero by lra. reflexivity. }
    split; [exact Htot|]. split; [exact HI|].
    rewrite Hrun. unfold bind. split.
    + intros Hs. rewrite normal_refused by nra. reflexivity.
    + intros Hs. rewrite normal_ok by nra. reflexivity.
Qed.

Lemma sim2_noise_level_edges_witness :
  Sim2.simulate_output_current 5 0 30 0.02 (mkRng (fun _ => 1) (fun _ => []) 0)
  = (Raise ZeroDivisionError, mkRng (fun _ => 1) (fun _ => []) 0)
  /\ Sim2.simulate_output_current 5 5 30 (-0.02) (mkRng (fun _ => 1) (fun _ => []) 0)
     = (Raise ValueError, mkRng (fun _ => 1) (fun _ => []) 0).
Proof.
  split.
  - apply (sim2_noise_level_edges 5 0 30 0.02); [lra | lra | lra | reflexivity].
  - apply (sim2_noise_level_edges 5 5 30 (-0.02)); lra.
Defined.

(** ** sim1.py: geometry of the numerical aperture *)

(** For a screen distance b between 1e-100 and 1e100 and a spot diameter of
    magnitude up to 1e100: mirroring D negates both the angle and NA; the
    numerical aperture is D / sqrt(D^2 + 4 b^2), the sine of the half-angle
    of the cone over a spot of diameter D at distance b; and for D >= 0 the
    angle lies between 0 and 90 degrees and NA between 0 and 1, the ends
    included. *)
Theorem sim1_numerical_aperture_geometry (D b : R) :
  1e-100 <= b <= 1e100 -> -1e100 <= D <= 1e100 ->
  exists theta_deg NA,
    Sim1.calculate_numerical_aperture D b = Ok (theta_deg, NA)
    /\ Sim1.calculate_numerical_aperture (- D) b = Ok (- theta_deg, - NA)
    /\ NA = D / R_sqrt.sqrt (D ^ 2 + 4 * b ^ 2)
    /\ (0 <= D -> 0 <= theta_deg <= 90 /\ 0 <= NA <= 1).
Proof.
  intros Hb _.
  unfold Sim1.calculate_numerical_aperture.
  rewrite !div_nonzero by lra.
  eexists _, _. split; [reflexivity|]. split; [| split].
  - replace (- D / (2 * b)) with (- (D / (2 * b))) by (field; lra).
    rewrite atan_opp, sin_neg. unfold Sim1.degrees.
    f_equal. f_equal. ring.
  - rewrite sin_atan.
    assert (Hs : 0 < D ^ 2 + 4 * b ^ 2) by nra.
    assert (Hroot : R_sqrt.sqrt (1 + (D / (2 * b))²)
                    = R_sqrt.sqrt (D ^ 2 + 4 * b ^ 2) / (2 * b)).
    { replace (1 + (D / (2 * b))²)
        with ((D ^ 2 + 4 * b ^ 2) / (2 * b)²) by (unfold Rsqr; field; lra).
      rewrite sqrt_div_alt by (unfold Rsqr; nra).
      rewrite sqrt_Rsqr by lra. reflexivity. }
    rewrite Hroot.
    assert (Hsq : 0 < R_sqrt.sqrt (D ^ 2 + 4 * b ^ 2)) by (apply sqrt_lt_R0; exact Hs).
    field. lra.
  - intros HD.
    assert (Hq : 0 <= D / (2 * b)).
    { apply Rmult_le_pos; [exact HD | apply Rlt_le, Rinv_0_lt_compat; lra]. }
    assert (Ha : 0 <= atan (D / (2 * b)) < PI / 2).
    { split; [| apply atan_bound].
      destruct Hq as [Hq | <-]; [| rewrite atan_0; lra].
      rewrite <- atan_0. apply Rlt_le, atan_increasing. exact Hq. }
    pose proof PI_RGT_0 as Hpi.
    split.
    + unfold Sim1.degrees.
      assert (Hk : 0 < 180 / PI) by (apply Rdiv_lt_0_compat; lra).
      assert (He : PI / 2 * (180 / PI) = 90) by (field; lra).
      split; nra.
    + split; [apply sin_ge_0; lra | apply SIN_bound].
Qed.

Lemma sim1_numerical_aperture_geometry_witness :
  exists theta_deg NA,
    Sim1.calculate_numerical_aperture 1.15 100 = Ok (theta_deg, NA)
    /\ Sim1.calculate_numerical_aperture (Ropp 1.15) 100 = Ok (- theta_deg, - NA)
    /\ 0 <= NA <= 1.
Proof.
  destruct (sim1_numerical_aperture_geometry 1.15 100)
    as (t & na & H1 & H2 & _ & Hb); [lra | lra |].
  exists t, na. split; [exact H1|]. split; [exact H2|].
  apply Hb. lra.
Defined.
